(** * Reconciliation loop of the InferenceJob sample controller

    A shallow embedding of [controller.go] (package main) and of the
    InferenceJob types (package v1alpha1).  Go pointers to InferenceJob
    objects are addresses into an explicit heap, so that "the cached object
    is shared and read-only" is a statement about that heap.  The API
    clients, the listers, the work queue and the event recorder are Go
    interfaces: the clients and listers are functions carried by the
    [Controller] value, the queue and the recorder record what they are
    asked to do in the [State].  Logging to stdout and klog is not
    modelled. *)

From Stdlib Require Import ZArith Lia Ascii String.
From stdpp Require Import base strings list gmap.

(** ** Go values shared by every package *)

(** A Go [string -> string] map literal. *)
Abbreviation labelmap := (gmap string string).

(** The result of [fmt.Sprintf]: the format and its operands, verbs left
    unexpanded. *)
#[local] Unset Elimination Schemes.
Inductive message : Type :=
  | Literal (s : string)
  | Sprintf (format : string) (args : list message).
#[local] Set Elimination Schemes.

(** Go [error] values met in the controller.  [StatusError] is an API
    status error with its reason; [Errorf] is [fmt.Errorf]. *)
Inductive error : Type :=
  | StatusError (reason : string) (detail : string)
  | Errorf (m : message).

(** [err.Error()]. *)
Definition Error (e : error) : message :=
  match e with
  | StatusError _ detail => Literal detail
  | Errorf m => m
  end.

(** A Go [(value, error)] pair whose value is only read when the error is
    nil. *)
Inductive Result (A : Type) : Type :=
  | Ok (a : A)
  | Err (e : error).
Arguments Ok {A} a.
Arguments Err {A} e.

(** ** package strings *)
Module strings.

(** [HasPrefix s p]. *)
Fixpoint HasPrefix (s p : string) : bool :=
  match p, s with
  | EmptyString, _ => true
  | String _ _, EmptyString => false
  | String a p', String b s' => if Ascii.eqb a b then HasPrefix s' p' else false
  end.

(** [Split_go sep skip cur s]: scan [s]; [cur] is the piece being built,
    [skip] the bytes of a matched separator still to drop. *)
Fixpoint Split_go (sep : string) (skip : nat) (cur : string) (s : string)
  : list string :=
  match s with
  | EmptyString => [cur]
  | String c s' =>
      match skip with
      | S k => Split_go sep k cur s'
      | O =>
          if HasPrefix s sep
          then cur :: Split_go sep (String.length sep - 1) EmptyString s'
          else Split_go sep 0 (cur +:+ String c EmptyString) s'
      end
  end.

(** [strings.Split(s, sep)] for a non-empty separator: the pieces of [s]
    between the leftmost, non-overlapping occurrences of [sep]. *)
Definition Split (s sep : string) : list string := Split_go sep 0 EmptyString s.

End strings.

(** ** package errors (k8s.io/apimachinery/pkg/api/errors) *)
Module errors.

Definition StatusReasonNotFound : string := "NotFound".

Definition NewNotFound (name : string) : error :=
  StatusError StatusReasonNotFound name.

(** [IsNotFound(err)]: false on nil and on errors that carry no status. *)
Definition IsNotFound (err : option error) : bool :=
  match err with
  | Some (StatusError reason _) => String.eqb reason StatusReasonNotFound
  | _ => false
  end.

End errors.

(** ** package schema *)
Module schema.

Record GroupVersion : Type := { Group : string; Version : string }.

Record GroupVersionKind : Type :=
  { gvk_Group : string; gvk_Version : string; gvk_Kind : string }.

Definition WithKind (gv : GroupVersion) (kind : string) : GroupVersionKind :=
  {| gvk_Group := Group gv; gvk_Version := Version gv; gvk_Kind := kind |}.

Definition GroupVersion_of (gvk : GroupVersionKind) : GroupVersion :=
  {| Group := gvk_Group gvk; Version := gvk_Version gvk |}.

(** [GroupVersion.String()]. *)
Definition GroupVersion_String (gv : GroupVersion) : string :=
  if (0 <? String.length (Group gv))%nat
  then Group gv +:+ "/" +:+ Version gv
  else Version gv.

End schema.

(** ** package metav1 *)
Module metav1.

Record OwnerReference : Type := {
  ref_APIVersion : string;
  ref_Kind : string;
  ref_Name : string;
  ref_UID : string;
  ref_Controller : option bool;
  ref_BlockOwnerDeletion : option bool;
}.

Record ObjectMeta : Type := {
  Name : string;
  Namespace : string;
  SelfLink : string;
  UID : string;
  ResourceVersion : string;
  Labels : labelmap;
  OwnerReferences : list OwnerReference;
}.

Record LabelSelector : Type := { MatchLabels : labelmap }.

(** [GetControllerOf]: the first owner reference whose [Controller] is
    set and true. *)
Fixpoint controllerOf (refs : list OwnerReference) : option OwnerReference :=
  match refs with
  | [] => None
  | r :: rest =>
      match ref_Controller r with
      | Some true => Some r
      | _ => controllerOf rest
      end
  end.

Definition GetControllerOf (controllee : ObjectMeta) : option OwnerReference :=
  controllerOf (OwnerReferences controllee).

(** [IsControlledBy(obj, owner)]. *)
Definition IsControlledBy (obj owner : ObjectMeta) : bool :=
  match GetControllerOf obj with
  | None => false
  | Some r => String.eqb (ref_UID r) (UID owner)
  end.

(** [NewControllerRef(owner, gvk)]. *)
Definition NewControllerRef (owner : ObjectMeta) (gvk : schema.GroupVersionKind)
  : OwnerReference :=
  {| ref_APIVersion := schema.GroupVersion_String (schema.GroupVersion_of gvk);
     ref_Kind := schema.gvk_Kind gvk;
     ref_Name := Name owner;
     ref_UID := UID owner;
     ref_Controller := Some true;
     ref_BlockOwnerDeletion := Some true |}.

End metav1.

(** ** package corev1 *)
Module corev1.

Definition EventTypeNormal : string := "Normal".
Definition EventTypeWarning : string := "Warning".

Record Container : Type := { c_Name : string; c_Image : string }.

Record PodSpec : Type := { Containers : list Container }.

Record PodTemplateSpec : Type := {
  tmpl_ObjectMeta : metav1.ObjectMeta;
  tmpl_Spec : PodSpec;
}.

End corev1.

(** ** package appsv1 *)
Module appsv1.

(** [Replicas] is a [*int32]: [None] is the nil pointer. *)
Record DeploymentSpec : Type := {
  Replicas : option Z;
  Selector : option metav1.LabelSelector;
  Template : corev1.PodTemplateSpec;
}.

Record DeploymentStatus : Type := { AvailableReplicas : Z }.

Record Deployment : Type := {
  ObjectMeta : metav1.ObjectMeta;
  Spec : DeploymentSpec;
  Status : DeploymentStatus;
}.

End appsv1.

(** ** package v1alpha1: the InferenceJob types *)
Module samplev1alpha1.

Record InferenceJobSpec : Type := {
  DeploymentName : string;
  Replicas : option Z;
  ImageToDeploy : string;
}.

Record InferenceJobStatus : Type := { AvailableReplicas : Z }.

Record InferenceJob : Type := {
  ObjectMeta : metav1.ObjectMeta;
  Spec : InferenceJobSpec;
  Status : InferenceJobStatus;
}.

End samplev1alpha1.

(** The zero [ObjectMeta], as a Go composite literal leaves unset fields. *)
Definition zeroObjectMeta : metav1.ObjectMeta :=
  {| metav1.Name := EmptyString; metav1.Namespace := EmptyString; metav1.SelfLink := EmptyString;
     metav1.UID := EmptyString; metav1.ResourceVersion := EmptyString; metav1.Labels := ∅;
     metav1.OwnerReferences := [] |}.

(** ** package cache (k8s.io/client-go/tools/cache) *)
Module cache.

(** [SplitMetaNamespaceKey(key)]: one part is a bare name, two parts are
    namespace and name, anything else is an error. *)
Definition SplitMetaNamespaceKey (key : string) : Result (string * string) :=
  match strings.Split key "/" with
  | [name] => Ok (EmptyString, name)
  | [namespace; name] => Ok (namespace, name)
  | _ => Err (Errorf (Sprintf "unexpected key format: %q" [Literal key]))
  end.

(** The key [MetaNamespaceKeyFunc] gives an object with metadata [m]. *)
Definition MetaNamespaceKey (m : metav1.ObjectMeta) : string :=
  if (0 <? String.length (metav1.Namespace m))%nat
  then metav1.Namespace m +:+ "/" +:+ metav1.Name m
  else metav1.Name m.

End cache.

(** ** The controller's world *)

(** A pointer to an InferenceJob: an address in the heap. *)
Definition ptr : Type := nat.

(** A Go [interface{}] value as the informers and the queue deliver it:
    a Deployment, a pointer to an InferenceJob, a deletion tombstone
    ([cache.DeletedFinalStateUnknown]) or a value of some other type. *)
Inductive Any : Type :=
  | AnyDeployment (d : appsv1.Deployment)
  | AnyInferenceJob (p : ptr)
  | AnyTombstone (key : string) (obj : Any)
  | AnyString (s : string)
  | AnyOther.

(** The write calls of the two API clients, with the object as sent. *)
Inductive Call : Type :=
  | CreateDeployment (namespace : string) (d : appsv1.Deployment)
  | UpdateDeployment (namespace : string) (d : appsv1.Deployment)
  | UpdateInferenceJob (namespace : string) (j : samplev1alpha1.InferenceJob).

(** What [recorder.Event] is given. *)
Record Event : Type := {
  ev_object : ptr;
  ev_type : string;
  ev_reason : string;
  ev_message : message;
}.

(** The calls made on the rate-limited work queue. *)
Inductive QueueOp : Type :=
  | QAdd (item : Any)
  | QAddRateLimited (item : Any)
  | QForget (item : Any)
  | QDone (item : Any).

(** Everything a method of the controller can change: the heap of
    InferenceJob objects, the pending items of the work queue, and the
    logs of the write calls, recorded events, queue calls and errors given
    to [utilruntime.HandleError], oldest first. *)
Record State : Type := {
  heap : list samplev1alpha1.InferenceJob;
  pending : list Any;
  calls : list Call;
  events : list Event;
  queueOps : list QueueOp;
  handled : list error;
}.

(** The Deployments client of [kubeclientset]. *)
Record DeploymentInterface : Type := {
  deployments_Create : string -> appsv1.Deployment -> Result appsv1.Deployment;
  deployments_Update : string -> appsv1.Deployment -> Result appsv1.Deployment;
}.

(** The InferenceJobs client of [sampleclientset]. *)
Record InferenceJobInterface : Type := {
  inferenceJobs_Update :
    string -> samplev1alpha1.InferenceJob -> Result samplev1alpha1.InferenceJob;
}.

(** The [Controller] struct.  The listers take a namespace and a name;
    the InferenceJob lister hands out pointers into the shared cache.  The
    [workqueue] and [recorder] fields live in the [State]. *)
Record Controller : Type := {
  kubeclientset : DeploymentInterface;
  sampleclientset : InferenceJobInterface;
  deploymentsLister : string -> string -> Result appsv1.Deployment;
  inferenceJobsLister : string -> string -> Result ptr;
}.

(** ** Computations: state passing, with Go's panic *)

Inductive Outcome (A : Type) : Type :=
  | Ret (a : A)
  | Panic (why : string).
Arguments Ret {A} a.
Arguments Panic {A} why.

Definition M (A : Type) : Type := State -> State * Outcome A.

Definition ret {A : Type} (a : A) : M A := fun s => (s, Ret a).

Definition bind {A B : Type} (m : M A) (k : A -> M B) : M B :=
  fun s =>
    match m s with
    | (s', Ret a) => k a s'
    | (s', Panic why) => (s', Panic why)
    end.

Definition panic {A : Type} (why : string) : M A := fun s => (s, Panic why).

Notation "'let*' x := m 'in' k" := (bind m (fun x => k))
  (at level 10, x name, m at level 100, k at level 200).

(** The nil dereference of Go's runtime. *)
Definition nilDereference : string :=
  "invalid memory address or nil pointer dereference".

(** [*p] on an optional value. *)
Definition deref {A : Type} (p : option A) : M A :=
  match p with
  | Some a => ret a
  | None => panic nilDereference
  end.

Definition set_heap (h : list samplev1alpha1.InferenceJob) (s : State) : State :=
  {| heap := h; pending := pending s; calls := calls s; events := events s;
     queueOps := queueOps s; handled := handled s |}.

Definition set_pending (q : list Any) (s : State) : State :=
  {| heap := heap s; pending := q; calls := calls s; events := events s;
     queueOps := queueOps s; handled := handled s |}.

Definition log_call (c : Call) (s : State) : State :=
  {| heap := heap s; pending := pending s; calls := calls s ++ [c];
     events := events s; queueOps := queueOps s; handled := handled s |}.

Definition log_event (e : Event) (s : State) : State :=
  {| heap := heap s; pending := pending s; calls := calls s;
     events := events s ++ [e]; queueOps := queueOps s; handled := handled s |}.

Definition log_queueOp (o : QueueOp) (s : State) : State :=
  {| heap := heap s; pending := pending s; calls := calls s; events := events s;
     queueOps := queueOps s ++ [o]; handled := handled s |}.

Definition log_handled (e : error) (s : State) : State :=
  {| heap := heap s; pending := pending s; calls := calls s; events := events s;
     queueOps := queueOps s; handled := handled s ++ [e] |}.

(** Reading through a pointer; an address with no object behind it is
    Go's nil. *)
Definition load (p : ptr) : M samplev1alpha1.InferenceJob :=
  fun s => deref (heap s !! p) s.

(** Writing through a pointer. *)
Definition store (p : ptr) (j : samplev1alpha1.InferenceJob) : M unit :=
  fun s =>
    match heap s !! p with
    | Some _ => (set_heap (<[p := j]> (heap s)) s, Ret tt)
    | None => (s, Panic nilDereference)
    end.

(** A freshly allocated object. *)
Definition alloc (j : samplev1alpha1.InferenceJob) : M ptr :=
  fun s => (set_heap (heap s ++ [j]) s, Ret (length (heap s))).

(** Modelled from the spec: [InferenceJob.DeepCopy], generated code of the
    repository that is not among the sources.  The spec calls its result
    "a local copy": a new object with the fields of the original.  The
    [*int32] of [Spec.Replicas] is modelled by value, so copying the
    record copies it too. *)
Definition DeepCopy (p : ptr) : M ptr :=
  let* j := load p in alloc j.

(** [utilruntime.HandleError]. *)
Definition HandleError (e : error) : M unit :=
  fun s => (log_handled e s, Ret tt).

(** [recorder.Event(object, eventtype, reason, message)]. *)
Definition recorder_Event (object : ptr) (eventtype reason : string) (msg : message)
  : M unit :=
  fun s =>
    (log_event {| ev_object := object; ev_type := eventtype;
                  ev_reason := reason; ev_message := msg |} s, Ret tt).

(** [defer d] around [body]: [d] runs when [body] returns and also while a
    panic of [body] unwinds. *)
Definition defer {A : Type} (d : M unit) (body : M A) : M A :=
  fun s =>
    match body s with
    | (s', out) =>
        match d s' with
        | (s'', Ret _) => (s'', out)
        | (s'', Panic why) => (s'', Panic why)
        end
    end.

(** ** The work queue, as the controller drives it *)

Fixpoint Any_eqb (a b : Any) : bool :=
  match a, b with
  | AnyString x, AnyString y => String.eqb x y
  | AnyInferenceJob p, AnyInferenceJob q => Nat.eqb p q
  | AnyTombstone k x, AnyTombstone l y => String.eqb k l && Any_eqb x y
  | _, _ => false
  end.

(** [workqueue.Add(item)]: pending afterwards, once. *)
Definition workqueue_Add (item : Any) : M unit :=
  fun s =>
    let q := if existsb (Any_eqb item) (pending s) then pending s
             else pending s ++ [item] in
    (set_pending q (log_queueOp (QAdd item) s), Ret tt).

(** [workqueue.Get()]: the oldest pending item.  On an empty queue [Get]
    blocks until an item arrives or the queue is shut down; only the
    second way out is modelled. *)
Definition workqueue_Get : M (Any * bool) :=
  fun s =>
    match pending s with
    | [] => (s, Ret (AnyOther, true))
    | item :: q => (set_pending q s, Ret (item, false))
    end.

Definition workqueue_Done (item : Any) : M unit :=
  fun s => (log_queueOp (QDone item) s, Ret tt).

Definition workqueue_Forget (item : Any) : M unit :=
  fun s => (log_queueOp (QForget item) s, Ret tt).

(** [workqueue.AddRateLimited(item)]: the item comes back after its
    back-off delay, which is outside one step of a worker. *)
Definition workqueue_AddRateLimited (item : Any) : M unit :=
  fun s => (log_queueOp (QAddRateLimited item) s, Ret tt).

(** ** The API clients *)

Definition Deployments_Create (c : Controller) (namespace : string)
  (d : appsv1.Deployment) : M (Result appsv1.Deployment) :=
  fun s => (log_call (CreateDeployment namespace d) s,
            Ret (deployments_Create (kubeclientset c) namespace d)).

Definition Deployments_Update (c : Controller) (namespace : string)
  (d : appsv1.Deployment) : M (Result appsv1.Deployment) :=
  fun s => (log_call (UpdateDeployment namespace d) s,
            Ret (deployments_Update (kubeclientset c) namespace d)).

(** The client sends the object its argument points to. *)
Definition InferenceJobs_Update (c : Controller) (namespace : string) (p : ptr)
  : M (Result samplev1alpha1.InferenceJob) :=
  let* j := load p in
  fun s => (log_call (UpdateInferenceJob namespace j) s,
            Ret (inferenceJobs_Update (sampleclientset c) namespace j)).

(** ** controller.go *)

Definition SuccessSynced : string := "Synced".
Definition ErrResourceExists : string := "ErrResourceExists".
Definition MessageResourceExists : string :=
  "Resource %q already exists and is not managed by InferenceJob".
Definition MessageResourceSynced : string := "InferenceJob synced successfully".

(** [obj.(metav1.Object)]: the metadata of a value that has some. *)
Definition asObject (obj : Any) : M (option metav1.ObjectMeta) :=
  match obj with
  | AnyDeployment d => ret (Some (appsv1.ObjectMeta d))
  | AnyInferenceJob p =>
      let* j := load p in ret (Some (samplev1alpha1.ObjectMeta j))
  | _ => ret None
  end.

(** [cache.MetaNamespaceKeyFunc(obj)]. *)
Definition MetaNamespaceKeyFunc (obj : Any) : M (Result string) :=
  let* o := asObject obj in
  match o with
  | Some m => ret (Ok (cache.MetaNamespaceKey m))
  | None => ret (Err (Errorf (Sprintf "object has no meta: %v" [])))
  end.

(** [s[0]] of a slice of strings; [strings.Split] never returns an empty
    slice ([Split_never_empty] below), so the index is in range. *)
Definition index0 (l : list string) : string := hd EmptyString l.

Section Methods.

(** [samplev1alpha1.SchemeGroupVersion], declared in a file of the
    package that is not among the sources. *)
Variable SchemeGroupVersion : schema.GroupVersion.

Definition newDeployment (inferenceJob : samplev1alpha1.InferenceJob)
  : appsv1.Deployment :=
  let meta := samplev1alpha1.ObjectMeta inferenceJob in
  let spec := samplev1alpha1.Spec inferenceJob in
  let labels : labelmap :=
    <["app" := samplev1alpha1.ImageToDeploy spec]>
      (<["controller" := metav1.Name meta]> ∅) in
  {| appsv1.ObjectMeta :=
       {| metav1.Name := samplev1alpha1.DeploymentName spec;
          metav1.Namespace := metav1.Namespace meta;
          metav1.SelfLink := EmptyString;
          metav1.UID := EmptyString;
          metav1.ResourceVersion := EmptyString;
          metav1.Labels := ∅;
          metav1.OwnerReferences :=
            [metav1.NewControllerRef meta
               (schema.WithKind SchemeGroupVersion "InferenceJob")] |};
     appsv1.Spec :=
       {| appsv1.Replicas := samplev1alpha1.Replicas spec;
          appsv1.Selector := Some {| metav1.MatchLabels := labels |};
          appsv1.Template :=
            {| corev1.tmpl_ObjectMeta :=
                 {| metav1.Name := EmptyString; metav1.Namespace := EmptyString;
                    metav1.SelfLink := EmptyString; metav1.UID := EmptyString;
                    metav1.ResourceVersion := EmptyString;
                    metav1.Labels := labels;
                    metav1.OwnerReferences := [] |};
               corev1.tmpl_Spec :=
                 {| corev1.Containers :=
                      [{| corev1.c_Name :=
                            index0 (strings.Split
                                      (samplev1alpha1.ImageToDeploy spec) ":");
                          corev1.c_Image :=
                            samplev1alpha1.ImageToDeploy spec |}] |} |} |};
     appsv1.Status := {| appsv1.AvailableReplicas := 0 |} |}.

(** [updateInferenceJobStatus]: the status is written into a copy, and
    the copy is what the client is given. *)
Definition updateInferenceJobStatus (c : Controller) (inferenceJob : ptr)
  (deployment : appsv1.Deployment) : M (option error) :=
  let* inferenceJobCopy := DeepCopy inferenceJob in
  let* copied := load inferenceJobCopy in
  let* _ :=
    store inferenceJobCopy
      {| samplev1alpha1.ObjectMeta := samplev1alpha1.ObjectMeta copied;
         samplev1alpha1.Spec := samplev1alpha1.Spec copied;
         samplev1alpha1.Status :=
           {| samplev1alpha1.AvailableReplicas :=
                appsv1.AvailableReplicas (appsv1.Status deployment) |} |} in
  let* job := load inferenceJob in
  let* res :=
    InferenceJobs_Update c
      (metav1.Namespace (samplev1alpha1.ObjectMeta job)) inferenceJobCopy in
  match res with
  | Ok _ => ret None
  | Err err => ret (Some err)
  end.

(** [syncHandler].  The InferenceJob behind the lister's pointer is read
    once: nothing writes to it before [updateInferenceJobStatus]. *)
Definition syncHandler (c : Controller) (key : string) : M (option error) :=
  match cache.SplitMetaNamespaceKey key with
  | Err _ =>
      let* _ := HandleError
                  (Errorf (Sprintf "invalid resource key: %s" [Literal key])) in
      ret None
  | Ok (namespace, name) =>
      match inferenceJobsLister c namespace name with
      | Err err =>
          if errors.IsNotFound (Some err)
          then
            let* _ := HandleError
                        (Errorf (Sprintf
                           "inferenceJob '%s' in work queue no longer exists"
                           [Literal key])) in
            ret None
          else ret (Some err)
      | Ok inferenceJob =>
          let* job := load inferenceJob in
          let meta := samplev1alpha1.ObjectMeta job in
          let deploymentName :=
            samplev1alpha1.DeploymentName (samplev1alpha1.Spec job) in
          if String.eqb deploymentName EmptyString
          then
            let* _ := HandleError
                        (Errorf (Sprintf
                           "%s: deployment name must be specified"
                           [Literal key])) in
            ret None
          else
            let* got :=
              match deploymentsLister c (metav1.Namespace meta) deploymentName with
              | Err err =>
                  if errors.IsNotFound (Some err)
                  then Deployments_Create c (metav1.Namespace meta)
                         (newDeployment job)
                  else ret (Err err)
              | Ok deployment => ret (Ok deployment)
              end in
            match got with
            | Err err => ret (Some err)
            | Ok deployment =>
                if negb (metav1.IsControlledBy
                           (appsv1.ObjectMeta deployment) meta)
                then
                  let msg :=
                    Sprintf MessageResourceExists
                      [Literal (metav1.Name (appsv1.ObjectMeta deployment))] in
                  let* _ := recorder_Event inferenceJob
                              corev1.EventTypeWarning ErrResourceExists msg in
                  ret (Some (Errorf msg))
                else
                  let* diverged :=
                    match samplev1alpha1.Replicas (samplev1alpha1.Spec job) with
                    | None => ret false
                    | Some wanted =>
                        let* current :=
                          deref (appsv1.Replicas (appsv1.Spec deployment)) in
                        ret (negb (Z.eqb wanted current))
                    end in
                  let* updated :=
                    if diverged
                    then Deployments_Update c (metav1.Namespace meta)
                           (newDeployment job)
                    else ret (Ok deployment) in
                  match updated with
                  | Err err => ret (Some err)
                  | Ok deployment =>
                      let* err :=
                        updateInferenceJobStatus c inferenceJob deployment in
                      match err with
                      | Some e => ret (Some e)
                      | None =>
                          let* _ := recorder_Event inferenceJob
                                      corev1.EventTypeNormal SuccessSynced
                                      (Literal MessageResourceSynced) in
                          ret None
                      end
                  end
            end
      end
  end.

(** [processNextWorkItem]: one item off the queue, through [syncHandler],
    with [Done] deferred around the inner function. *)
Definition processNextWorkItem (c : Controller) : M bool :=
  let* got := workqueue_Get in
  let obj := fst got in
  if snd got then ret false
  else
    let* err :=
      defer (workqueue_Done obj)
        (match obj with
         | AnyString key =>
             let* failure := syncHandler c key in
             match failure with
             | Some e =>
                 let* _ := workqueue_AddRateLimited (AnyString key) in
                 ret (Some (Errorf (Sprintf "error syncing '%s': %s, requeuing"
                                      [Literal key; Error e])))
             | None =>
                 let* _ := workqueue_Forget obj in
                 ret None
             end
         | _ =>
             let* _ := workqueue_Forget obj in
             let* _ := HandleError
                         (Errorf (Sprintf
                            "expected string in workqueue but got %#v" [])) in
             ret None
         end) in
    match err with
    | Some e => let* _ := HandleError e in ret true
    | None => ret true
    end.


(** [enqueueInferenceJob]. *)
Definition enqueueInferenceJob (obj : Any) : M unit :=
  let* k := MetaNamespaceKeyFunc obj in
  match k with
  | Err err => HandleError err
  | Ok key => workqueue_Add (AnyString key)
  end.

(** The [UpdateFunc] that [NewController] registers on the InferenceJob
    informer: the new object is enqueued, the old one is not looked at. *)
Definition inferenceJobUpdateFunc (old new : Any) : M unit :=
  enqueueInferenceJob new.

(** The first half of [handleObject]: the object itself, or the one a
    tombstone wraps; [None] after a decoding error has been handled. *)
Definition decodeObject (obj : Any) : M (option metav1.ObjectMeta) :=
  let* o := asObject obj in
  match o with
  | Some object => ret (Some object)
  | None =>
      match obj with
      | AnyTombstone _ inner =>
          let* o' := asObject inner in
          match o' with
          | Some object => ret (Some object)
          | None =>
              let* _ := HandleError
                          (Errorf (Literal
                             "error decoding object tombstone, invalid type")) in
              ret None
          end
      | _ =>
          let* _ := HandleError
                      (Errorf (Literal "error decoding object, invalid type")) in
          ret None
      end
  end.

(** [handleObject]. *)
Definition handleObject (c : Controller) (obj : Any) : M unit :=
  let* decoded := decodeObject obj in
  match decoded with
  | None => ret tt
  | Some object =>
      match metav1.GetControllerOf object with
      | Some ownerRef =>
          if negb (String.eqb (metav1.ref_Kind ownerRef) "InferenceJob")
          then ret tt
          else
            match inferenceJobsLister c (metav1.Namespace object)
                    (metav1.ref_Name ownerRef) with
            | Err _ => ret tt
            | Ok inferenceJob => enqueueInferenceJob (AnyInferenceJob inferenceJob)
            end
      | None => ret tt
      end
  end.

(** The [UpdateFunc] that [NewController] registers on the Deployment
    informer.  Its two type assertions have no [ok] result. *)
Definition deploymentUpdateFunc (c : Controller) (old new : Any) : M unit :=
  match new with
  | AnyDeployment newDepl =>
      match old with
      | AnyDeployment oldDepl =>
          if String.eqb (metav1.ResourceVersion (appsv1.ObjectMeta newDepl))
               (metav1.ResourceVersion (appsv1.ObjectMeta oldDepl))
          then ret tt
          else handleObject c new
      | _ => panic "interface conversion"
      end
  | _ => panic "interface conversion"
  end.

End Methods.

Arguments newDeployment : simpl never.

(** ** What the spec says, in its own words *)

(** The portion of an image reference preceding its first [":"]: the
    whole reference when it has none. *)
Fixpoint nameBeforeColon (image : string) : string :=
  match image with
  | EmptyString => EmptyString
  | String c rest =>
      if Ascii.eqb c ":"%char then EmptyString else String c (nameBeforeColon rest)
  end.

(** No [":"] occurs in a string. *)
Fixpoint colonFree (s : string) : bool :=
  match s with
  | EmptyString => true
  | String c rest => negb (Ascii.eqb c ":"%char) && colonFree rest
  end.

(** The labels [{app: image, controller: name}], by what each key maps
    to. *)
Definition labelsOf (image name : string) (key : string) : option string :=
  if String.eqb key "app" then Some image
  else if String.eqb key "controller" then Some name
  else None.

(** A Deployment found in the cache is not controlled by the job: it has
    no controller owner reference, or that reference names another UID. *)
Definition notControlledBy (d : appsv1.Deployment) (job : samplev1alpha1.InferenceJob)
  : Prop :=
  metav1.GetControllerOf (appsv1.ObjectMeta d) = None \/
  exists r, metav1.GetControllerOf (appsv1.ObjectMeta d) = Some r /\
            metav1.ref_UID r <> metav1.UID (samplev1alpha1.ObjectMeta job).

(** Write calls by kind. *)
Definition isDeploymentCreate (c : Call) : bool :=
  match c with CreateDeployment _ _ => true | _ => false end.

Definition isDeploymentUpdate (c : Call) : bool :=
  match c with UpdateDeployment _ _ => true | _ => false end.

Definition isDeploymentWrite (c : Call) : bool :=
  isDeploymentCreate c || isDeploymentUpdate c.

(** The key names an InferenceJob of the cache that has a target: the key
    splits, the lister has an object for it, and that object asks for a
    Deployment by name. *)
Record Cached (c : Controller) (s : State) (key : string) (p : ptr)
  (job : samplev1alpha1.InferenceJob) : Prop := {
  cached_key :
    exists namespace name,
      cache.SplitMetaNamespaceKey key = Ok (namespace, name) /\
      inferenceJobsLister c namespace name = Ok p;
  cached_job : heap s !! p = Some job;
  cached_target :
    samplev1alpha1.DeploymentName (samplev1alpha1.Spec job) <> EmptyString;
}.

(** The Deployment that the job's [DeploymentName] names in the cache. *)
Definition Targets (c : Controller) (job : samplev1alpha1.InferenceJob)
  (d : appsv1.Deployment) : Prop :=
  deploymentsLister c (metav1.Namespace (samplev1alpha1.ObjectMeta job))
    (samplev1alpha1.DeploymentName (samplev1alpha1.Spec job)) = Ok d.

(** No Deployment of that name is in the cache. *)
Definition TargetMissing (c : Controller) (job : samplev1alpha1.InferenceJob)
  : Prop :=
  exists e,
    deploymentsLister c (metav1.Namespace (samplev1alpha1.ObjectMeta job))
      (samplev1alpha1.DeploymentName (samplev1alpha1.Spec job)) = Err e /\
    errors.IsNotFound (Some e) = true.

(** The Deployment is correctly controlled by the job. *)
Definition Owned (d : appsv1.Deployment) (job : samplev1alpha1.InferenceJob)
  : Prop :=
  metav1.IsControlledBy (appsv1.ObjectMeta d) (samplev1alpha1.ObjectMeta job)
  = true.

(** Desired equals managed: the job leaves the replicas alone, or asks for
    the count the Deployment has. *)
Definition ReplicasAgree (d : appsv1.Deployment)
  (job : samplev1alpha1.InferenceJob) : Prop :=
  samplev1alpha1.Replicas (samplev1alpha1.Spec job) = None \/
  exists r,
    samplev1alpha1.Replicas (samplev1alpha1.Spec job) = Some r /\
    appsv1.Replicas (appsv1.Spec d) = Some r.

(** The state the idempotence property starts from. *)
Definition Converged (c : Controller) (s : State) (key : string) (p : ptr)
  (job : samplev1alpha1.InferenceJob) (d : appsv1.Deployment) : Prop :=
  Cached c s key p job /\ Targets c job d /\ Owned d job /\ ReplicasAgree d job.

(** The job with another observed status: what a status write-back
    sends. *)
Definition withStatus (job : samplev1alpha1.InferenceJob) (available : Z)
  : samplev1alpha1.InferenceJob :=
  {| samplev1alpha1.ObjectMeta := samplev1alpha1.ObjectMeta job;
     samplev1alpha1.Spec := samplev1alpha1.Spec job;
     samplev1alpha1.Status :=
       {| samplev1alpha1.AvailableReplicas := available |} |}.

(** The write calls made from state [s] to state [s']. *)
Definition issued (s s' : State) (new : list Call) : Prop :=
  calls s' = calls s ++ new.

(** The key is dropped before any Deployment is looked at: it does not
    split, or the cache has no InferenceJob for it, or the InferenceJob
    names no Deployment. *)
Definition Dropped (c : Controller) (s : State) (key : string) : Prop :=
  (exists e, cache.SplitMetaNamespaceKey key = Err e) \/
  (exists namespace name e,
      cache.SplitMetaNamespaceKey key = Ok (namespace, name) /\
      inferenceJobsLister c namespace name = Err e /\
      errors.IsNotFound (Some e) = true) \/
  (exists namespace name p job,
      cache.SplitMetaNamespaceKey key = Ok (namespace, name) /\
      inferenceJobsLister c namespace name = Ok p /\
      heap s !! p = Some job /\
      samplev1alpha1.DeploymentName (samplev1alpha1.Spec job) = EmptyString).

(** What [handleObject] is handed, and the object it is about: a live
    Deployment or InferenceJob, or the tombstone of one. *)
Inductive Delivers (s : State) : Any -> metav1.ObjectMeta -> Prop :=
  | live_deployment (d : appsv1.Deployment) :
      Delivers s (AnyDeployment d) (appsv1.ObjectMeta d)
  | live_inferenceJob (p : ptr) (j : samplev1alpha1.InferenceJob) :
      heap s !! p = Some j ->
      Delivers s (AnyInferenceJob p) (samplev1alpha1.ObjectMeta j)
  | tombstone_deployment (key : string) (d : appsv1.Deployment) :
      Delivers s (AnyTombstone key (AnyDeployment d)) (appsv1.ObjectMeta d)
  | tombstone_inferenceJob (key : string) (p : ptr)
      (j : samplev1alpha1.InferenceJob) :
      heap s !! p = Some j ->
      Delivers s (AnyTombstone key (AnyInferenceJob p))
        (samplev1alpha1.ObjectMeta j).

(** The object has no InferenceJob to wake: no controller reference, one
    of another kind, or one whose InferenceJob the lister does not
    return. *)
Definition Unresolved (c : Controller) (object : metav1.ObjectMeta) : Prop :=
  metav1.GetControllerOf object = None \/
  exists r,
    metav1.GetControllerOf object = Some r /\
    (metav1.ref_Kind r <> "InferenceJob" \/
     exists e,
       inferenceJobsLister c (metav1.Namespace object) (metav1.ref_Name r)
       = Err e).

(** ** The outcome of [syncHandler] in closed form

    These functions are not in the source: they spell out, state by
    state, what the monadic [syncHandler] computes once the InferenceJob
    is in hand, and [syncHandler_run] below proves that they do. *)

Definition conflictEvent (p : ptr) (d : appsv1.Deployment) : Event :=
  {| ev_object := p; ev_type := corev1.EventTypeWarning;
     ev_reason := ErrResourceExists;
     ev_message := Sprintf MessageResourceExists
                     [Literal (metav1.Name (appsv1.ObjectMeta d))] |}.

Definition syncedEvent (p : ptr) : Event :=
  {| ev_object := p; ev_type := corev1.EventTypeNormal;
     ev_reason := SuccessSynced; ev_message := Literal MessageResourceSynced |}.

(** The status write-back and the success event. *)
Definition writeBack (c : Controller) (p : ptr)
  (job : samplev1alpha1.InferenceJob) (d : appsv1.Deployment) (s : State)
  : State * Outcome (option error) :=
  let sent := withStatus job (appsv1.AvailableReplicas (appsv1.Status d)) in
  let namespace := metav1.Namespace (samplev1alpha1.ObjectMeta job) in
  let s' := log_call (UpdateInferenceJob namespace sent)
              (set_heap (heap s ++ [sent]) s) in
  match inferenceJobs_Update (sampleclientset c) namespace sent with
  | Ok _ => (log_event (syncedEvent p) s', Ret None)
  | Err err => (s', Ret (Some err))
  end.

(** From a Deployment the job controls: the replica test, the update. *)
Definition converge (gv : schema.GroupVersion) (c : Controller) (p : ptr)
  (job : samplev1alpha1.InferenceJob) (d : appsv1.Deployment) (s : State)
  : State * Outcome (option error) :=
  let namespace := metav1.Namespace (samplev1alpha1.ObjectMeta job) in
  match samplev1alpha1.Replicas (samplev1alpha1.Spec job) with
  | None => writeBack c p job d s
  | Some wanted =>
      match appsv1.Replicas (appsv1.Spec d) with
      | None => (s, Panic nilDereference)
      | Some current =>
          if Z.eqb wanted current then writeBack c p job d s
          else
            let s' := log_call (UpdateDeployment namespace (newDeployment gv job)) s in
            match deployments_Update (kubeclientset c) namespace
                    (newDeployment gv job) with
            | Ok d' => writeBack c p job d' s'
            | Err err => (s', Ret (Some err))
            end
      end
  end.

(** From a Deployment read or created: the ownership test. *)
Definition checkOwner (gv : schema.GroupVersion) (c : Controller) (p : ptr)
  (job : samplev1alpha1.InferenceJob) (d : appsv1.Deployment) (s : State)
  : State * Outcome (option error) :=
  if metav1.IsControlledBy (appsv1.ObjectMeta d) (samplev1alpha1.ObjectMeta job)
  then converge gv c p job d s
  else (log_event (conflictEvent p d) s,
        Ret (Some (Errorf (ev_message (conflictEvent p d))))).

(** From the InferenceJob: the lookup of its Deployment, the create. *)
Definition reconcile (gv : schema.GroupVersion) (c : Controller) (p : ptr)
  (job : samplev1alpha1.InferenceJob) (s : State)
  : State * Outcome (option error) :=
  let namespace := metav1.Namespace (samplev1alpha1.ObjectMeta job) in
  match deploymentsLister c namespace
          (samplev1alpha1.DeploymentName (samplev1alpha1.Spec job)) with
  | Ok d => checkOwner gv c p job d s
  | Err e =>
      if errors.IsNotFound (Some e)
      then
        let s' := log_call (CreateDeployment namespace (newDeployment gv job)) s in
        match deployments_Create (kubeclientset c) namespace
                (newDeployment gv job) with
        | Ok d' => checkOwner gv c p job d' s'
        | Err e' => (s', Ret (Some e'))
        end
      else (s, Ret (Some e))
  end.


(** No ["/"] occurs in a string. *)
Fixpoint slashFree (s : string) : bool :=
  match s with
  | EmptyString => true
  | String c rest => negb (Ascii.eqb c "/"%char) && slashFree rest
  end.

(** A value [handleObject] cannot decode: neither an object nor the
    tombstone of one. *)
Definition notAnObject (obj : Any) : bool :=
  match obj with
  | AnyDeployment _ | AnyInferenceJob _ => false
  | _ => true
  end.

(** What the API client answers to a write call: its error, if any. *)
Definition answer (c : Controller) (call : Call) : option error :=
  match call with
  | CreateDeployment namespace d =>
      match deployments_Create (kubeclientset c) namespace d with
      | Ok _ => None
      | Err e => Some e
      end
  | UpdateDeployment namespace d =>
      match deployments_Update (kubeclientset c) namespace d with
      | Ok _ => None
      | Err e => Some e
      end
  | UpdateInferenceJob namespace j =>
      match inferenceJobs_Update (sampleclientset c) namespace j with
      | Ok _ => None
      | Err e => Some e
      end
  end.

(** The error [processNextWorkItem] hands to [HandleError] when it puts a
    key back. *)
Definition requeueError (key : string) (e : error) : error :=
  Errorf (Sprintf "error syncing '%s': %s, requeuing" [Literal key; Error e]).

(** The error [processNextWorkItem] hands to [HandleError] for an item
    that is not a string. *)
Definition invalidItemError : error :=
  Errorf (Sprintf "expected string in workqueue but got %#v" []).

(** A value that [handleObject] gives up on: not an object, and not a
    tombstone that wraps one. *)
Definition undecodable (obj : Any) : bool :=
  match obj with
  | AnyDeployment _ | AnyInferenceJob _ => false
  | AnyTombstone _ inner => notAnObject inner
  | _ => true
  end.

(** ** A small cluster, for the examples *)
Module Fixture.

Definition groupVersion : schema.GroupVersion :=
  {| schema.Group := "samplecontroller.k8s.io"; schema.Version := "v1alpha1" |}.

Definition objectMeta (name uid version : string)
  (owners : list metav1.OwnerReference) : metav1.ObjectMeta :=
  {| metav1.Name := name; metav1.Namespace := "default";
     metav1.SelfLink := EmptyString; metav1.UID := uid;
     metav1.ResourceVersion := version; metav1.Labels := ∅;
     metav1.OwnerReferences := owners |}.

(** The InferenceJob [default/job], asking for Deployment [target]. *)
Definition job (target : string) (replicas : option Z)
  : samplev1alpha1.InferenceJob :=
  {| samplev1alpha1.ObjectMeta := objectMeta "job" "uid-job" "1" [];
     samplev1alpha1.Spec :=
       {| samplev1alpha1.DeploymentName := target;
          samplev1alpha1.Replicas := replicas;
          samplev1alpha1.ImageToDeploy := "nginx:latest" |};
     samplev1alpha1.Status := {| samplev1alpha1.AvailableReplicas := 0 |} |}.

(** A controller reference of kind [kind] to the object [name], [uid]. *)
Definition ownedBy (kind name uid : string) : metav1.OwnerReference :=
  metav1.NewControllerRef (objectMeta name uid "1" [])
    (schema.WithKind groupVersion kind).

(** The Deployment [default/x]. *)
Definition deployment (version : string)
  (owners : list metav1.OwnerReference) (replicas : option Z)
  : appsv1.Deployment :=
  {| appsv1.ObjectMeta := objectMeta "x" "uid-x" version owners;
     appsv1.Spec :=
       {| appsv1.Replicas := replicas;
          appsv1.Selector := None;
          appsv1.Template :=
            {| corev1.tmpl_ObjectMeta := zeroObjectMeta;
               corev1.tmpl_Spec := {| corev1.Containers := [] |} |} |};
     appsv1.Status := {| appsv1.AvailableReplicas := 1 |} |}.

(** A cache of InferenceJobs that holds [default/job] at address 0. *)
Definition inferenceJobs (namespace name : string) : Result ptr :=
  if String.eqb namespace "default" && String.eqb name "job"
  then Ok 0
  else Err (errors.NewNotFound name).

(** A cache of Deployments that holds [target], if any, as [default/x]. *)
Definition deployments (target : option appsv1.Deployment)
  (namespace name : string) : Result appsv1.Deployment :=
  match target with
  | Some d =>
      if String.eqb namespace "default" && String.eqb name "x"
      then Ok d
      else Err (errors.NewNotFound name)
  | None => Err (errors.NewNotFound name)
  end.

(** API clients that accept every write and answer with the object. *)
Definition controller (target : option appsv1.Deployment) : Controller :=
  {| kubeclientset :=
       {| deployments_Create := fun _ d => Ok d;
          deployments_Update := fun _ d => Ok d |};
     sampleclientset := {| inferenceJobs_Update := fun _ j => Ok j |};
     deploymentsLister := deployments target;
     inferenceJobsLister := inferenceJobs |}.

(** [default/x] with no owner, and controlled by [default/job]. *)
Definition unowned (replicas : option Z) : appsv1.Deployment :=
  deployment "7" [] replicas.

Definition owned (replicas : option Z) : appsv1.Deployment :=
  deployment "7" [ownedBy "InferenceJob" "job" "uid-job"] replicas.

(** A state with [j] alone in the heap, [items] pending and empty logs. *)
Definition state (j : samplev1alpha1.InferenceJob) (items : list Any) : State :=
  {| heap := [j]; pending := items; calls := []; events := [];
     queueOps := []; handled := [] |}.

End Fixture.

(** ** The small cluster when things fail *)
Module Faulty.

(** A failure that is not a NotFound. *)
Definition unavailable : error :=
  StatusError "ServiceUnavailable" "the server is unable to handle the request".

(** API clients that refuse every write; the caches of [Fixture]. *)
Definition refusing (target : option appsv1.Deployment) : Controller :=
  {| kubeclientset :=
       {| deployments_Create := fun _ _ => Err unavailable;
          deployments_Update := fun _ _ => Err unavailable |};
     sampleclientset := {| inferenceJobs_Update := fun _ _ => Err unavailable |};
     deploymentsLister := Fixture.deployments target;
     inferenceJobsLister := Fixture.inferenceJobs |}.

(** An InferenceJob lister that fails. *)
Definition unreadableJobs : Controller :=
  {| kubeclientset := kubeclientset (Fixture.controller None);
     sampleclientset := sampleclientset (Fixture.controller None);
     deploymentsLister := Fixture.deployments None;
     inferenceJobsLister := fun _ _ => Err unavailable |}.

(** A Deployment lister that fails. *)
Definition unreadableDeployments : Controller :=
  {| kubeclientset := kubeclientset (Fixture.controller None);
     sampleclientset := sampleclientset (Fixture.controller None);
     deploymentsLister := fun _ _ => Err unavailable;
     inferenceJobsLister := Fixture.inferenceJobs |}.

End Faulty.

(** ** Facts about the library functions *)

Lemma append_cons (a : Ascii.ascii) (s t : string) :
  String a s +:+ t = String a (s +:+ t).
Proof. reflexivity. Qed.

Lemma append_empty_r (s : string) : s +:+ EmptyString = s.
Proof.
  induction s as [|a s IH]; [reflexivity | now rewrite append_cons, IH].
Qed.

Lemma append_snoc (s t : string) (c : Ascii.ascii) :
  (s +:+ String c EmptyString) +:+ t = s +:+ String c t.
Proof.
  induction s as [|a s IH]; [reflexivity | now rewrite !append_cons, IH].
Qed.

Lemma HasPrefix_empty (s : string) : strings.HasPrefix s EmptyString = true.
Proof. now destruct s. Qed.

Lemma HasPrefix_colon (c : Ascii.ascii) (s : string) :
  strings.HasPrefix (String c s) ":" = Ascii.eqb c ":"%char.
Proof.
  change (strings.HasPrefix (String c s) ":")
    with (if Ascii.eqb ":"%char c then strings.HasPrefix s EmptyString else false).
  rewrite HasPrefix_empty, (Ascii.eqb_sym ":"%char c).
  now destruct (Ascii.eqb c ":"%char).
Qed.

Lemma Split_go_scan (sep cur : string) (c : Ascii.ascii) (s : string) :
  strings.Split_go sep 0 cur (String c s) =
  if strings.HasPrefix (String c s) sep
  then cur :: strings.Split_go sep (String.length sep - 1) EmptyString s
  else strings.Split_go sep 0 (cur +:+ String c EmptyString) s.
Proof. reflexivity. Qed.

Lemma nameBeforeColon_cons (c : Ascii.ascii) (s : string) :
  nameBeforeColon (String c s) =
  if Ascii.eqb c ":"%char then EmptyString else String c (nameBeforeColon s).
Proof. reflexivity. Qed.

Lemma Split_go_colon_hd (s cur : string) :
  hd EmptyString (strings.Split_go ":" 0 cur s) = cur +:+ nameBeforeColon s.
Proof.
  revert cur.
  induction s as [|c s IH]; intros cur.
  - cbn. now rewrite append_empty_r.
  - rewrite Split_go_scan, HasPrefix_colon, nameBeforeColon_cons.
    destruct (Ascii.eqb c ":"%char).
    + cbn. now rewrite append_empty_r.
    + now rewrite IH, append_snoc.
Qed.

Lemma Split_go_never_empty (sep : string) (s : string) (skip : nat) (cur : string) :
  strings.Split_go sep skip cur s <> [].
Proof.
  revert skip cur.
  induction s as [|c s IH]; intros skip cur; cbn [strings.Split_go].
  - discriminate.
  - destruct skip; [|apply IH].
    destruct (strings.HasPrefix (String c s) sep); [discriminate | apply IH].
Qed.

Lemma Split_never_empty (s sep : string) : strings.Split s sep <> [].
Proof. apply Split_go_never_empty. Qed.

Lemma nameBeforeColon_colonFree (s : string) : colonFree (nameBeforeColon s) = true.
Proof.
  induction s as [|c s IH]; [reflexivity|].
  rewrite nameBeforeColon_cons.
  destruct (Ascii.eqb c ":"%char) eqn:E; [reflexivity|].
  cbn [colonFree]. now rewrite E, IH.
Qed.

Lemma nameBeforeColon_prefix (s : string) :
  s = nameBeforeColon s \/
  exists rest, s = nameBeforeColon s +:+ String ":"%char rest.
Proof.
  induction s as [|c s IH]; [now left|].
  rewrite nameBeforeColon_cons.
  destruct (Ascii.eqb c ":"%char) eqn:E.
  - right. exists s. apply Ascii.eqb_eq in E. now subst.
  - destruct IH as [IH | [rest IH]].
    + left. now rewrite <- IH.
    + right. exists rest. now rewrite append_cons, <- IH.
Qed.

Lemma IsControlledBy_false (obj owner : metav1.ObjectMeta) :
  metav1.IsControlledBy obj owner = false <->
  (metav1.GetControllerOf obj = None \/
   exists r, metav1.GetControllerOf obj = Some r /\
             metav1.ref_UID r <> metav1.UID owner).
Proof.
  unfold metav1.IsControlledBy.
  destruct (metav1.GetControllerOf obj) as [r|]; split.
  - intros H. right. exists r. split; [reflexivity|].
    now apply String.eqb_neq.
  - intros [H | [r' [H Hne]]]; [discriminate|].
    injection H as <-. now apply String.eqb_neq.
  - now left.
  - reflexivity.
Qed.

Lemma MetaNamespaceKey_namespaced (m : metav1.ObjectMeta) :
  metav1.Namespace m <> EmptyString ->
  cache.MetaNamespaceKey m = metav1.Namespace m +:+ "/" +:+ metav1.Name m.
Proof.
  unfold cache.MetaNamespaceKey.
  destruct (metav1.Namespace m); [congruence | reflexivity].
Qed.

Lemma labels_lookup (image name key : string) :
  (<["app" := image]> (<["controller" := name]> (∅ : labelmap))) !! key =
  labelsOf image name key.
Proof.
  unfold labelsOf.
  destruct (String.eqb_spec key "app") as [->|Happ].
  - apply lookup_insert_eq.
  - rewrite lookup_insert_ne by congruence.
    destruct (String.eqb_spec key "controller") as [->|Hctl].
    + apply lookup_insert_eq.
    + rewrite lookup_insert_ne by congruence. apply lookup_empty.
Qed.

(** ** The shape of the Deployment *)

(** C8.  The Deployment that [newDeployment] builds takes its replicas
    from the job's [Spec.Replicas] as it is, nil included; its one
    container is named by the part of [Spec.ImageToDeploy] before the first
    [":"], a colon-free prefix of the image that is the whole image or is
    followed by [":"]; and the selector and the pod template both carry the
    labels that map [app] to the image, [controller] to the job's name and
    nothing else. *)
Theorem newDeployment_shape (gv : schema.GroupVersion)
  (job : samplev1alpha1.InferenceJob) :
  let d := newDeployment gv job in
  let image := samplev1alpha1.ImageToDeploy (samplev1alpha1.Spec job) in
  let name := metav1.Name (samplev1alpha1.ObjectMeta job) in
  appsv1.Replicas (appsv1.Spec d)
    = samplev1alpha1.Replicas (samplev1alpha1.Spec job) /\
  corev1.c_Name <$> corev1.Containers
                      (corev1.tmpl_Spec (appsv1.Template (appsv1.Spec d)))
    = [nameBeforeColon image] /\
  colonFree (nameBeforeColon image) = true /\
  (image = nameBeforeColon image \/
   exists rest, image = nameBeforeColon image +:+ String ":"%char rest) /\
  (exists selector,
      appsv1.Selector (appsv1.Spec d) = Some selector /\
      forall key, metav1.MatchLabels selector !! key = labelsOf image name key) /\
  (forall key,
      metav1.Labels (corev1.tmpl_ObjectMeta (appsv1.Template (appsv1.Spec d)))
        !! key = labelsOf image name key).
Proof.
  intros d image name. subst d. unfold newDeployment. cbn [appsv1.Spec
    appsv1.Replicas appsv1.Template appsv1.Selector corev1.tmpl_Spec
    corev1.tmpl_ObjectMeta corev1.Containers metav1.Labels].
  split; [reflexivity|].
  split.
  { cbn [fmap list_fmap corev1.c_Name]. unfold index0, strings.Split.
    now rewrite Split_go_colon_hd. }
  split; [apply nameBeforeColon_colonFree|].
  split; [apply nameBeforeColon_prefix|].
  split.
  - eexists. split; [reflexivity|]. intros key. apply labels_lookup.
  - intros key. apply labels_lookup.
Qed.

(** ** Running computations *)

Lemma bind_run {A B : Type} (m : M A) (k : A -> M B) (s s' : State) (a : A) :
  m s = (s', Ret a) -> bind m k s = k a s'.
Proof. intros H. unfold bind. now rewrite H. Qed.

Lemma load_run (s : State) (p : ptr) (j : samplev1alpha1.InferenceJob) :
  heap s !! p = Some j -> load p s = (s, Ret j).
Proof. intros H. unfold load. now rewrite H. Qed.

Lemma store_run (s : State) (p : ptr) (j j' : samplev1alpha1.InferenceJob) :
  heap s !! p = Some j ->
  store p j' s = (set_heap (<[p := j']> (heap s)) s, Ret tt).
Proof. intros H. unfold store. now rewrite H. Qed.

Lemma DeepCopy_run (s : State) (p : ptr) (j : samplev1alpha1.InferenceJob) :
  heap s !! p = Some j ->
  DeepCopy p s = (set_heap (heap s ++ [j]) s, Ret (length (heap s))).
Proof.
  intros H. unfold DeepCopy.
  now rewrite (bind_run _ _ _ _ _ (load_run _ _ _ H)).
Qed.

Lemma set_heap_twice (h h' : list samplev1alpha1.InferenceJob) (s : State) :
  set_heap h' (set_heap h s) = set_heap h' s.
Proof. reflexivity. Qed.

Lemma bind_ret {A B : Type} (a : A) (k : A -> M B) : bind (ret a) k = k a.
Proof. reflexivity. Qed.

Lemma recorder_Event_run (p : ptr) (t r : string) (m : message) (s : State) :
  recorder_Event p t r m s =
  (log_event {| ev_object := p; ev_type := t; ev_reason := r; ev_message := m |} s,
   Ret tt).
Proof. reflexivity. Qed.

Lemma HandleError_run (e : error) (s : State) :
  HandleError e s = (log_handled e s, Ret tt).
Proof. reflexivity. Qed.

Lemma Deployments_Create_run (c : Controller) (namespace : string)
  (d : appsv1.Deployment) (s : State) :
  Deployments_Create c namespace d s =
  (log_call (CreateDeployment namespace d) s,
   Ret (deployments_Create (kubeclientset c) namespace d)).
Proof. reflexivity. Qed.

Lemma Deployments_Update_run (c : Controller) (namespace : string)
  (d : appsv1.Deployment) (s : State) :
  Deployments_Update c namespace d s =
  (log_call (UpdateDeployment namespace d) s,
   Ret (deployments_Update (kubeclientset c) namespace d)).
Proof. reflexivity. Qed.

(** Into [syncHandler], past the key, the lister and the target name. *)
Ltac enter_sync H :=
  let ns := fresh "namespace" in
  let n := fresh "name" in
  let Hk := fresh "Hkey" in
  let Hl := fresh "Hlister" in
  let Hj := fresh "Hjob" in
  let Ht := fresh "Htarget" in
  destruct H as [(ns & n & Hk & Hl) Hj Ht];
  unfold syncHandler; rewrite Hk, Hl;
  rewrite (bind_run _ _ _ _ _ (load_run _ _ _ Hj));
  apply String.eqb_neq in Ht; rewrite Ht.

Section Running.

Variable gv : schema.GroupVersion.

(** One call of [updateInferenceJobStatus], in full: the copy is
    appended to the heap with the new status, and sent. *)
Lemma updateInferenceJobStatus_run (c : Controller) (p : ptr)
  (job : samplev1alpha1.InferenceJob) (d : appsv1.Deployment) (s : State) :
  heap s !! p = Some job ->
  let sent := withStatus job (appsv1.AvailableReplicas (appsv1.Status d)) in
  let namespace := metav1.Namespace (samplev1alpha1.ObjectMeta job) in
  updateInferenceJobStatus c p d s =
  (log_call (UpdateInferenceJob namespace sent)
     (set_heap (heap s ++ [sent]) s),
   Ret (match inferenceJobs_Update (sampleclientset c) namespace sent with
        | Ok _ => None
        | Err err => Some err
        end)).
Proof.
  intros Hp sent namespace.
  set (q := length (heap s)).
  set (s1 := set_heap (heap s ++ [job]) s).
  set (s2 := set_heap (heap s ++ [sent]) s).
  assert (Hq1 : heap s1 !! q = Some job)
    by (apply list_lookup_middle; reflexivity).
  assert (Hstore : store q sent s1 = (s2, Ret tt)).
  { rewrite (store_run _ _ _ _ Hq1). unfold s1, s2.
    rewrite set_heap_twice. cbn [heap set_heap].
    rewrite insert_app_r_alt by (unfold q; lia).
    unfold q. now rewrite Nat.sub_diag. }
  assert (Hp2 : heap s2 !! p = Some job)
    by (apply lookup_app_l_Some; exact Hp).
  assert (Hq2 : heap s2 !! q = Some sent)
    by (apply list_lookup_middle; reflexivity).
  unfold updateInferenceJobStatus.
  rewrite (bind_run _ _ _ _ _ (DeepCopy_run _ _ _ Hp)). fold q s1.
  rewrite (bind_run _ _ _ _ _ (load_run _ _ _ Hq1)).
  rewrite (bind_run _ _ _ _ _ Hstore).
  rewrite (bind_run _ _ _ _ _ (load_run _ _ _ Hp2)).
  unfold InferenceJobs_Update.
  erewrite bind_run
    by (rewrite (bind_run _ _ _ _ _ (load_run _ _ _ Hq2)); reflexivity).
  fold namespace.
  now destruct (inferenceJobs_Update (sampleclientset c) namespace sent).
Qed.

(** [syncHandler] on a cached InferenceJob with a target computes
    [reconcile]. *)
Lemma syncHandler_run (c : Controller) (s : State) (key : string) (p : ptr)
  (job : samplev1alpha1.InferenceJob) :
  Cached c s key p job ->
  syncHandler gv c key s = reconcile gv c p job s.
Proof.
  intros H. pose proof (cached_job _ _ _ _ _ H) as Hp. enter_sync H.
  assert (Htail : forall d s0, heap s0 !! p = Some job ->
    (if negb (metav1.IsControlledBy (appsv1.ObjectMeta d)
                (samplev1alpha1.ObjectMeta job))
     then
       let msg := Sprintf MessageResourceExists
                    [Literal (metav1.Name (appsv1.ObjectMeta d))] in
       let* _ := recorder_Event p corev1.EventTypeWarning ErrResourceExists msg in
       ret (Some (Errorf msg))
     else
       let* diverged :=
         match samplev1alpha1.Replicas (samplev1alpha1.Spec job) with
         | None => ret false
         | Some wanted =>
             let* current := deref (appsv1.Replicas (appsv1.Spec d)) in
             ret (negb (Z.eqb wanted current))
         end in
       let* updated :=
         if diverged
         then Deployments_Update c
                (metav1.Namespace (samplev1alpha1.ObjectMeta job))
                (newDeployment gv job)
         else ret (Ok d) in
       match updated with
       | Err err => ret (Some err)
       | Ok deployment =>
           let* err := updateInferenceJobStatus c p deployment in
           match err with
           | Some e => ret (Some e)
           | None =>
               let* _ := recorder_Event p corev1.EventTypeNormal SuccessSynced
                           (Literal MessageResourceSynced) in
               ret None
           end
       end) s0 = checkOwner gv c p job d s0).
  { intros d s0 Hp0. unfold checkOwner.
    assert (Hwrite : forall d0 s1, heap s1 !! p = Some job ->
      (let* err := updateInferenceJobStatus c p d0 in
       match err with
       | Some e => ret (Some e)
       | None =>
           let* _ := recorder_Event p corev1.EventTypeNormal SuccessSynced
                       (Literal MessageResourceSynced) in
           ret None
       end) s1 = writeBack c p job d0 s1).
    { intros d0 s1 Hp1.
      rewrite (bind_run _ _ _ _ _ (updateInferenceJobStatus_run c p job d0 s1 Hp1)).
      unfold writeBack.
      destruct (inferenceJobs_Update _ _ _); [|reflexivity].
      now rewrite (bind_run _ _ _ _ _ (recorder_Event_run _ _ _ _ _)). }
    destruct (metav1.IsControlledBy _ _); cbn [negb].
    - unfold converge.
      destruct (samplev1alpha1.Replicas (samplev1alpha1.Spec job)) as [wanted|].
      + destruct (appsv1.Replicas (appsv1.Spec d)) as [current|]; cbn [deref].
        * rewrite !bind_ret.
          destruct (Z.eqb wanted current); cbn [negb].
          -- rewrite bind_ret. now apply Hwrite.
          -- rewrite (bind_run _ _ _ _ _ (Deployments_Update_run _ _ _ _)).
             destruct (deployments_Update _ _ _); [|reflexivity].
             now apply Hwrite.
        * reflexivity.
      + rewrite !bind_ret. now apply Hwrite.
    - now rewrite (bind_run _ _ _ _ _ (recorder_Event_run _ _ _ _ _)). }
  unfold reconcile.
  destruct (deploymentsLister c _ _) as [d|e].
  - rewrite bind_ret. now apply Htail.
  - destruct (errors.IsNotFound (Some e)).
    + rewrite (bind_run _ _ _ _ _ (Deployments_Create_run _ _ _ _)).
      destruct (deployments_Create _ _ _) as [d'|e'].
      * now apply Htail.
      * reflexivity.
    + now rewrite bind_ret.
Qed.

End Running.

(** ** Effects of the closed form *)

Lemma writeBack_calls (c : Controller) (p : ptr)
  (job : samplev1alpha1.InferenceJob) (d : appsv1.Deployment) (s : State) :
  issued s (fst (writeBack c p job d s))
    [UpdateInferenceJob (metav1.Namespace (samplev1alpha1.ObjectMeta job))
       (withStatus job (appsv1.AvailableReplicas (appsv1.Status d)))].
Proof.
  unfold issued, writeBack. now destruct (inferenceJobs_Update _ _ _).
Qed.

Lemma writeBack_heap (c : Controller) (p : ptr)
  (job : samplev1alpha1.InferenceJob) (d : appsv1.Deployment) (s : State) :
  heap (fst (writeBack c p job d s)) =
  heap s ++ [withStatus job (appsv1.AvailableReplicas (appsv1.Status d))].
Proof. unfold writeBack. now destruct (inferenceJobs_Update _ _ _). Qed.

Lemma sync_converged_run (gv : schema.GroupVersion) (c : Controller)
  (s : State) (key : string) (p : ptr) (job : samplev1alpha1.InferenceJob)
  (d : appsv1.Deployment) :
  Converged c s key p job d ->
  syncHandler gv c key s = writeBack c p job d s.
Proof.
  intros (H & Hd & Hown & Hagree).
  rewrite (syncHandler_run gv c s key p job H).
  unfold reconcile. rewrite Hd. unfold checkOwner. rewrite Hown.
  unfold converge.
  destruct Hagree as [-> | (r & -> & ->)]; [reflexivity|].
  now rewrite Z.eqb_refl.
Qed.

(** No pass of [syncHandler] over a cached job changes an object that
    was in the heap: the lister's objects are only read. *)
Lemma syncHandler_keeps_heap (gv : schema.GroupVersion) (c : Controller)
  (s : State) (key : string) (p : ptr) (job : samplev1alpha1.InferenceJob) :
  Cached c s key p job ->
  forall (q : ptr) (j : samplev1alpha1.InferenceJob),
    heap s !! q = Some j ->
    heap (fst (syncHandler gv c key s)) !! q = Some j.
Proof.
  intros H q j Hq.
  rewrite (syncHandler_run gv c s key p job H).
  assert (Hwrite : forall d s0, heap s0 !! q = Some j ->
            heap (fst (writeBack c p job d s0)) !! q = Some j)
    by (intros d s0 Hs0; rewrite writeBack_heap; now apply lookup_app_l_Some).
  assert (Hcheck : forall d s0, heap s0 !! q = Some j ->
            heap (fst (checkOwner gv c p job d s0)) !! q = Some j).
  { intros d s0 Hs0. unfold checkOwner, converge.
    destruct (metav1.IsControlledBy _ _); [|exact Hs0].
    destruct (samplev1alpha1.Replicas _) as [wanted|]; [|now apply Hwrite].
    destruct (appsv1.Replicas _) as [current|]; [|exact Hs0].
    destruct (Z.eqb wanted current); [now apply Hwrite|].
    destruct (deployments_Update _ _ _); [now apply Hwrite | exact Hs0]. }
  unfold reconcile.
  destruct (deploymentsLister c _ _) as [d|e]; [now apply Hcheck|].
  destruct (errors.IsNotFound (Some e)); [|exact Hq].
  destruct (deployments_Create _ _ _); [now apply Hcheck | exact Hq].
Qed.

(** The calls of a state reached through the logs, as appended lists. *)
Ltac solve_issued :=
  unfold issued;
  cbn [calls heap log_call log_event log_handled log_queueOp set_heap
       set_pending fst];
  rewrite <- ?app_assoc; reflexivity.

(** ** The Sync Handler *)

(** C2.  When the job's [DeploymentName] names a Deployment of the cache
    that the job does not control (no controller owner reference, or one
    with another UID), one [syncHandler] call returns an error, records
    exactly one event, of type Warning and on the InferenceJob, and makes
    no write call. *)
Theorem sync_conflict (gv : schema.GroupVersion) (c : Controller) (s : State)
  (key : string) (p : ptr) (job : samplev1alpha1.InferenceJob)
  (d : appsv1.Deployment) :
  Cached c s key p job -> Targets c job d -> notControlledBy d job ->
  exists s' e ev,
    syncHandler gv c key s = (s', Ret (Some e)) /\
    issued s s' [] /\
    events s' = events s ++ [ev] /\
    ev_object ev = p /\
    ev_type ev = corev1.EventTypeWarning /\
    ev_reason ev = ErrResourceExists.
Proof.
  intros H Hd Hn. apply IsControlledBy_false in Hn.
  rewrite (syncHandler_run gv c s key p job H).
  unfold reconcile. rewrite Hd. unfold checkOwner. rewrite Hn.
  eexists _, _, _. split; [reflexivity|].
  split; [unfold issued; cbn [calls log_event]; now rewrite app_nil_r|].
  split; [reflexivity|]. now split.
Qed.

(** C3.  When the job asks for [R] replicas and the Deployment it names
    is in the cache, controlled by it, with another replica count, one
    [syncHandler] call makes exactly one Deployment write: an update with
    the Deployment of [newDeployment], whose replicas are [R]. *)
Theorem sync_update_once (gv : schema.GroupVersion) (c : Controller)
  (s : State) (key : string) (p : ptr) (job : samplev1alpha1.InferenceJob)
  (d : appsv1.Deployment) (R : Z) :
  Cached c s key p job -> Targets c job d -> Owned d job ->
  samplev1alpha1.Replicas (samplev1alpha1.Spec job) = Some R ->
  (exists r, appsv1.Replicas (appsv1.Spec d) = Some r /\ r <> R) ->
  exists s' out rest,
    syncHandler gv c key s = (s', out) /\
    issued s s'
      (UpdateDeployment (metav1.Namespace (samplev1alpha1.ObjectMeta job))
         (newDeployment gv job) :: rest) /\
    List.filter isDeploymentWrite rest = [] /\
    appsv1.Replicas (appsv1.Spec (newDeployment gv job)) = Some R.
Proof.
  intros H Hd Hown HR (r & Hr & Hne).
  rewrite (syncHandler_run gv c s key p job H).
  unfold reconcile. rewrite Hd. unfold checkOwner. rewrite Hown.
  unfold converge. rewrite HR, Hr.
  assert (Z.eqb R r = false) as -> by (apply Z.eqb_neq; congruence).
  unfold writeBack.
  destruct (deployments_Update _ _ _) as [d'|e].
  - destruct (inferenceJobs_Update _ _ _);
      eexists _, _, _; (split; [reflexivity|]);
      (split; [solve_issued|]); now split.
  - eexists _, _, _. split; [reflexivity|].
    split; [solve_issued|]. now split.
Qed.

Lemma newDeployment_controlled (gv : schema.GroupVersion)
  (job : samplev1alpha1.InferenceJob) :
  metav1.IsControlledBy (appsv1.ObjectMeta (newDeployment gv job))
    (samplev1alpha1.ObjectMeta job) = true.
Proof.
  unfold metav1.IsControlledBy, metav1.GetControllerOf, newDeployment.
  cbn [appsv1.ObjectMeta metav1.OwnerReferences metav1.controllerOf
       metav1.NewControllerRef metav1.ref_Controller metav1.ref_UID].
  apply String.eqb_refl.
Qed.

(** C4.  When the job names a Deployment that the cache does not have,
    one [syncHandler] call makes exactly one Deployment create call, in
    the job's namespace; the Deployment it sends has the name asked for,
    the job's namespace, and one owner reference, a controller reference
    of kind InferenceJob with the job's name and UID, so that the job
    controls it. *)
Theorem sync_create_once (gv : schema.GroupVersion) (c : Controller)
  (s : State) (key : string) (p : ptr) (job : samplev1alpha1.InferenceJob) :
  Cached c s key p job -> TargetMissing c job ->
  let meta := samplev1alpha1.ObjectMeta job in
  let created := newDeployment gv job in
  exists s' out rest,
    syncHandler gv c key s = (s', out) /\
    issued s s' (CreateDeployment (metav1.Namespace meta) created :: rest) /\
    List.filter isDeploymentCreate rest = [] /\
    metav1.Name (appsv1.ObjectMeta created)
      = samplev1alpha1.DeploymentName (samplev1alpha1.Spec job) /\
    metav1.Namespace (appsv1.ObjectMeta created) = metav1.Namespace meta /\
    (exists r,
        metav1.OwnerReferences (appsv1.ObjectMeta created) = [r] /\
        metav1.ref_Controller r = Some true /\
        metav1.ref_Kind r = "InferenceJob" /\
        metav1.ref_Name r = metav1.Name meta /\
        metav1.ref_UID r = metav1.UID meta) /\
    metav1.IsControlledBy (appsv1.ObjectMeta created) meta = true.
Proof.
  intros H (e & Hmissing & HnotFound) meta created.
  assert (Hshape :
    metav1.Name (appsv1.ObjectMeta created)
      = samplev1alpha1.DeploymentName (samplev1alpha1.Spec job) /\
    metav1.Namespace (appsv1.ObjectMeta created) = metav1.Namespace meta /\
    (exists r,
        metav1.OwnerReferences (appsv1.ObjectMeta created) = [r] /\
        metav1.ref_Controller r = Some true /\
        metav1.ref_Kind r = "InferenceJob" /\
        metav1.ref_Name r = metav1.Name meta /\
        metav1.ref_UID r = metav1.UID meta) /\
    metav1.IsControlledBy (appsv1.ObjectMeta created) meta = true).
  { split; [reflexivity|]. split; [reflexivity|].
    split; [|apply newDeployment_controlled].
    eexists. split; [reflexivity|]. now repeat split. }
  assert (Hrun : exists s' out rest,
    syncHandler gv c key s = (s', out) /\
    issued s s' (CreateDeployment (metav1.Namespace meta) created :: rest) /\
    List.filter isDeploymentCreate rest = []).
  { clear Hshape.
    rewrite (syncHandler_run gv c s key p job H).
    unfold reconcile. rewrite Hmissing, HnotFound. fold meta created.
    destruct (deployments_Create _ _ _) as [d'|e'].
    - unfold checkOwner, converge, writeBack. fold meta created.
      destruct (metav1.IsControlledBy (appsv1.ObjectMeta d') meta);
        [destruct (samplev1alpha1.Replicas (samplev1alpha1.Spec job))
           as [wanted|];
         [destruct (appsv1.Replicas (appsv1.Spec d')) as [current|];
          [destruct (Z.eqb wanted current);
           [|destruct (deployments_Update _ _ _)]|]|]|];
        repeat match goal with
          | |- context [match inferenceJobs_Update ?a ?b ?j with _ => _ end] =>
              destruct (inferenceJobs_Update a b j)
          end;
        eexists _, _, _; (split; [reflexivity|]);
        (split; [solve_issued | reflexivity]).
    - eexists _, _, _. split; [reflexivity|].
      split; [solve_issued | reflexivity]. }
  destruct Hrun as (s' & out & rest & Hsync & Hissued & Hfilter).
  exists s', out, rest. now repeat split.
Qed.

(** C6.  The replica test guards only the job's pointer: when the job
    asks for a replica count and the Deployment it controls has a nil
    [Spec.Replicas], [syncHandler] panics on the nil dereference, having
    changed nothing. *)
Theorem sync_nil_replicas_panics (gv : schema.GroupVersion) (c : Controller)
  (s : State) (key : string) (p : ptr) (job : samplev1alpha1.InferenceJob)
  (d : appsv1.Deployment) (R : Z) :
  Cached c s key p job -> Targets c job d -> Owned d job ->
  samplev1alpha1.Replicas (samplev1alpha1.Spec job) = Some R ->
  appsv1.Replicas (appsv1.Spec d) = None ->
  syncHandler gv c key s = (s, Panic nilDereference).
Proof.
  intros H Hd Hown HR Hnil.
  rewrite (syncHandler_run gv c s key p job H).
  unfold reconcile. rewrite Hd. unfold checkOwner. rewrite Hown.
  unfold converge. now rewrite HR, Hnil.
Qed.

(** C1, as the code has it.  On a converged state (the job's Deployment
    is in the cache, controlled by it, and the job's replicas are nil or
    those of the Deployment) every [syncHandler] call makes exactly one
    write call, the InferenceJob update that carries the observed status,
    and no Deployment create or update; the state stays converged, so the
    second of two calls in succession makes that one write again. *)
Theorem sync_converged_writes_status_only (gv : schema.GroupVersion)
  (c : Controller) (s : State) (key : string) (p : ptr)
  (job : samplev1alpha1.InferenceJob) (d : appsv1.Deployment) :
  Converged c s key p job d ->
  let s1 := fst (syncHandler gv c key s) in
  let s2 := fst (syncHandler gv c key s1) in
  let statusWrite :=
    UpdateInferenceJob (metav1.Namespace (samplev1alpha1.ObjectMeta job))
      (withStatus job (appsv1.AvailableReplicas (appsv1.Status d))) in
  issued s s1 [statusWrite] /\
  Converged c s1 key p job d /\
  issued s1 s2 [statusWrite] /\
  List.filter isDeploymentWrite [statusWrite] = [].
Proof.
  intros Hconv s1 s2 statusWrite.
  assert (Hs1 : s1 = fst (writeBack c p job d s))
    by (unfold s1; now rewrite (sync_converged_run gv c s key p job d Hconv)).
  assert (Hconv1 : Converged c s1 key p job d).
  { destruct Hconv as ([Hk Hj Ht] & Hd & Hown & Hagree).
    split; [|now repeat split].
    split; [exact Hk | | exact Ht].
    rewrite Hs1, writeBack_heap. now apply lookup_app_l_Some. }
  split; [rewrite Hs1; apply writeBack_calls|].
  split; [exact Hconv1|].
  split; [|reflexivity].
  unfold s2. rewrite (sync_converged_run gv c s1 key p job d Hconv1).
  apply writeBack_calls.
Qed.

(** ** The status write-back *)

(** C5.  [updateInferenceJobStatus] makes one write call, an InferenceJob
    update.  The object sent is the cached one with
    [Status.AvailableReplicas] set to the Deployment's: same metadata,
    same spec.  Every object that was in the heap, the cached one among
    them, is afterwards what it was: the write went to a new copy. *)
Theorem updateInferenceJobStatus_copies (c : Controller) (p : ptr)
  (job : samplev1alpha1.InferenceJob) (d : appsv1.Deployment) (s : State) :
  heap s !! p = Some job ->
  exists s' err sent,
    updateInferenceJobStatus c p d s = (s', Ret err) /\
    issued s s'
      [UpdateInferenceJob (metav1.Namespace (samplev1alpha1.ObjectMeta job))
         sent] /\
    sent = withStatus job (appsv1.AvailableReplicas (appsv1.Status d)) /\
    samplev1alpha1.Spec sent = samplev1alpha1.Spec job /\
    samplev1alpha1.ObjectMeta sent = samplev1alpha1.ObjectMeta job /\
    samplev1alpha1.AvailableReplicas (samplev1alpha1.Status sent)
      = appsv1.AvailableReplicas (appsv1.Status d) /\
    heap s' !! p = Some job /\
    (forall (q : ptr) (j : samplev1alpha1.InferenceJob),
        heap s !! q = Some j -> heap s' !! q = Some j) /\
    heap s' !! length (heap s) = Some sent.
Proof.
  intros Hp.
  rewrite (updateInferenceJobStatus_run c p job d s Hp).
  eexists _, _, _. split; [reflexivity|].
  split; [solve_issued|].
  split; [reflexivity|].
  split; [reflexivity|].
  split; [reflexivity|].
  split; [reflexivity|].
  cbn [heap log_call set_heap].
  split; [now apply lookup_app_l_Some|].
  split; [intros q j Hq; now apply lookup_app_l_Some|].
  now apply list_lookup_middle.
Qed.

(** ** Keys that are dropped *)

Lemma sync_dropped_run (gv : schema.GroupVersion) (c : Controller) (s : State)
  (key : string) :
  Dropped c s key ->
  exists e, syncHandler gv c key s = (log_handled e s, Ret None).
Proof.
  intros [(e & Hsplit) | [(ns & name & e & Hsplit & Hget & HnotFound)
                        | (ns & name & p & job & Hsplit & Hget & Hjob & Hempty)]];
    unfold syncHandler; rewrite Hsplit; cbv beta iota.
  - eexists. now rewrite (bind_run _ _ _ _ _ (HandleError_run _ _)).
  - rewrite Hget, HnotFound. cbv beta iota.
    eexists. now rewrite (bind_run _ _ _ _ _ (HandleError_run _ _)).
  - rewrite Hget. cbv beta iota.
    rewrite (bind_run _ _ _ _ _ (load_run _ _ _ Hjob)), Hempty.
    change (String.eqb EmptyString EmptyString) with true. cbv beta iota.
    eexists. now rewrite (bind_run _ _ _ _ _ (HandleError_run _ _)).
Qed.

Lemma Dropped_pending (c : Controller) (s : State) (key : string)
  (q : list Any) :
  Dropped c s key -> Dropped c (set_pending q s) key.
Proof. intros H. exact H. Qed.

(** C7.  A key that does not split, or whose InferenceJob the cache does
    not have, or whose InferenceJob names no Deployment, makes
    [syncHandler] return nil without a write call; the worker that took
    the key off the queue then calls [Forget] and [Done] and never
    [AddRateLimited], and leaves in the queue just the items that were
    behind the key. *)
Theorem sync_dropped_not_retried (gv : schema.GroupVersion) (c : Controller)
  (s : State) (key : string) :
  Dropped c s key ->
  (exists s',
      syncHandler gv c key s = (s', Ret None) /\ issued s s' []) /\
  (forall q : list Any,
      pending s = AnyString key :: q ->
      exists s',
        processNextWorkItem gv c s = (s', Ret true) /\
        issued s s' [] /\
        queueOps s' = queueOps s
                      ++ [QForget (AnyString key); QDone (AnyString key)] /\
        pending s' = q).
Proof.
  intros Hdrop. split.
  - destruct (sync_dropped_run gv c s key Hdrop) as (e & ->).
    eexists. split; [reflexivity|].
    unfold issued. cbn [calls log_handled]. now rewrite app_nil_r.
  - intros q Hq.
    destruct (sync_dropped_run gv c (set_pending q s) key
                (Dropped_pending c s key q Hdrop)) as (e & Hsync).
    unfold processNextWorkItem.
    assert (Hget : workqueue_Get s = (set_pending q s, Ret (AnyString key, false)))
      by (unfold workqueue_Get; now rewrite Hq).
    rewrite (bind_run _ _ _ _ _ Hget). cbn [fst snd].
    assert (Hbody :
      defer (workqueue_Done (AnyString key))
        (let* failure := syncHandler gv c key in
         match failure with
         | Some e0 =>
             let* _ := workqueue_AddRateLimited (AnyString key) in
             ret (Some (Errorf (Sprintf "error syncing '%s': %s, requeuing"
                                  [Literal key; Error e0])))
         | None =>
             let* _ := workqueue_Forget (AnyString key) in
             ret None
         end) (set_pending q s)
      = (log_queueOp (QDone (AnyString key))
           (log_queueOp (QForget (AnyString key))
              (log_handled e (set_pending q s))), Ret None)).
    { unfold defer. now rewrite (bind_run _ _ _ _ _ Hsync). }
    rewrite (bind_run _ _ _ _ _ Hbody).
    eexists. split; [reflexivity|].
    split; [unfold issued; cbn [calls log_queueOp log_handled set_pending];
            now rewrite app_nil_r|].
    split; [cbn [queueOps log_queueOp log_handled set_pending];
            now rewrite <- app_assoc|].
    reflexivity.
Qed.

(** ** The Owner Resolver *)

Lemma asObject_inferenceJob_run (s : State) (p : ptr)
  (j : samplev1alpha1.InferenceJob) :
  heap s !! p = Some j ->
  asObject (AnyInferenceJob p) s = (s, Ret (Some (samplev1alpha1.ObjectMeta j))).
Proof.
  intros Hj. unfold asObject.
  now rewrite (bind_run _ _ _ _ _ (load_run _ _ _ Hj)).
Qed.

Lemma decodeObject_run (s : State) (obj : Any) (object : metav1.ObjectMeta) :
  Delivers s obj object -> decodeObject obj s = (s, Ret (Some object)).
Proof.
  intros [d | p j Hj | k d | k p j Hj]; unfold decodeObject.
  - reflexivity.
  - now rewrite (bind_run _ _ _ _ _ (asObject_inferenceJob_run _ _ _ Hj)).
  - reflexivity.
  - change (asObject (AnyTombstone k (AnyInferenceJob p))) with (@ret (option metav1.ObjectMeta) None).
    rewrite bind_ret.
    now rewrite (bind_run _ _ _ _ _ (asObject_inferenceJob_run _ _ _ Hj)).
Qed.

Lemma Any_eqb_eq (a b : Any) : Any_eqb a b = true -> a = b.
Proof.
  revert b. induction a as [d | p | k a IH | x |]; intros [d' | p' | k' b | y |];
    cbn [Any_eqb]; try discriminate.
  - intros H. apply Nat.eqb_eq in H. now subst.
  - intros H. apply andb_prop in H as [Hk Ha].
    apply String.eqb_eq in Hk. apply IH in Ha. now subst.
  - intros H. apply String.eqb_eq in H. now subst.
Qed.

Lemma workqueue_Add_pending (item : Any) (s : State) :
  In item (pending (fst (workqueue_Add item s))).
Proof.
  unfold workqueue_Add. cbn [fst pending set_pending].
  destruct (existsb (Any_eqb item) (pending s)) eqn:E.
  - apply existsb_exists in E as (x & Hin & Heq).
    apply Any_eqb_eq in Heq. now subst.
  - apply in_or_app. right. now left.
Qed.

(** C9.  For an object that [handleObject] can decode (live, or out of a
    tombstone): with no controller owner reference, or one whose kind is
    not InferenceJob, or one whose InferenceJob the lister does not return,
    the call changes nothing, so nothing is enqueued and no error is
    handled; with a controller reference of kind InferenceJob to an
    InferenceJob of the cache, the call adds that job's key to the work
    queue, [namespace/name] for a namespaced job, and handles no error. *)
Theorem handleObject_resolves_owner (c : Controller) (s : State) (obj : Any)
  (object : metav1.ObjectMeta) :
  Delivers s obj object ->
  (Unresolved c object -> handleObject c obj s = (s, Ret tt)) /\
  (forall (r : metav1.OwnerReference) (p : ptr)
          (job : samplev1alpha1.InferenceJob),
      metav1.GetControllerOf object = Some r ->
      metav1.ref_Kind r = "InferenceJob" ->
      inferenceJobsLister c (metav1.Namespace object) (metav1.ref_Name r)
        = Ok p ->
      heap s !! p = Some job ->
      let meta := samplev1alpha1.ObjectMeta job in
      let key := cache.MetaNamespaceKey meta in
      exists s',
        handleObject c obj s = (s', Ret tt) /\
        queueOps s' = queueOps s ++ [QAdd (AnyString key)] /\
        In (AnyString key) (pending s') /\
        handled s' = handled s /\
        (metav1.Namespace meta <> EmptyString ->
         key = metav1.Namespace meta +:+ "/" +:+ metav1.Name meta)).
Proof.
  intros Hobj. pose proof (decodeObject_run s obj object Hobj) as Hdecode.
  split.
  - intros Hun. unfold handleObject.
    rewrite (bind_run _ _ _ _ _ Hdecode). cbv beta iota.
    destruct Hun as [-> | (r & -> & [Hkind | (e & ->)])]; [reflexivity| |].
    + apply String.eqb_neq in Hkind. now rewrite Hkind.
    + now destruct (negb _).
  - intros r p job Hr Hkind Hget Hjob meta key.
    unfold handleObject.
    rewrite (bind_run _ _ _ _ _ Hdecode). cbv beta iota.
    rewrite Hr, Hkind, Hget.
    change (String.eqb "InferenceJob" "InferenceJob") with true.
    cbn [negb]. cbv beta iota.
    assert (Hkey : MetaNamespaceKeyFunc (AnyInferenceJob p) s = (s, Ret (Ok key))).
    { unfold MetaNamespaceKeyFunc.
      now rewrite (bind_run _ _ _ _ _ (asObject_inferenceJob_run _ _ _ Hjob)). }
    unfold enqueueInferenceJob. rewrite (bind_run _ _ _ _ _ Hkey).
    exists (fst (workqueue_Add (AnyString key) s)).
    split; [reflexivity|].
    split; [reflexivity|].
    split; [apply workqueue_Add_pending|].
    split; [reflexivity|].
    apply MetaNamespaceKey_namespaced.
Qed.

(** ** Event ingestion *)

(** C10.  On a Deployment update, equal resource versions of the old and
    the new object make the handler return at once, [handleObject] left
    out; different ones make it [handleObject] on the new object. *)
Theorem deploymentUpdateFunc_skips_resync (c : Controller)
  (oldDepl newDepl : appsv1.Deployment) :
  (metav1.ResourceVersion (appsv1.ObjectMeta newDepl)
     = metav1.ResourceVersion (appsv1.ObjectMeta oldDepl) ->
   deploymentUpdateFunc c (AnyDeployment oldDepl) (AnyDeployment newDepl)
   = ret tt) /\
  (metav1.ResourceVersion (appsv1.ObjectMeta newDepl)
     <> metav1.ResourceVersion (appsv1.ObjectMeta oldDepl) ->
   deploymentUpdateFunc c (AnyDeployment oldDepl) (AnyDeployment newDepl)
   = handleObject c (AnyDeployment newDepl)).
Proof.
  unfold deploymentUpdateFunc. split; intros H.
  - apply String.eqb_eq in H. now rewrite H.
  - apply String.eqb_neq in H. now rewrite H.
Qed.

(** ** The theorems at work on the small cluster *)

(** [default/job] is cached at address 0 and has a target. *)
Ltac fixture_cached :=
  split;
  [ exists "default", "job"; split; reflexivity
  | reflexivity
  | intros Hempty; discriminate Hempty ].

Ltac fixture_converged :=
  split; [fixture_cached|];
  split; [reflexivity|];
  split; [reflexivity|];
  right; exists 2%Z; split; reflexivity.

(** Against C1 as written: in a converged state the second of two
    [syncHandler] calls in succession does make a write call. *)
Lemma sync_twice_repeats_status_write :
  let c := Fixture.controller (Some (Fixture.owned (Some 2%Z))) in
  let job := Fixture.job "x" (Some 2%Z) in
  let s := Fixture.state job [] in
  let s1 := fst (syncHandler Fixture.groupVersion c "default/job" s) in
  let s2 := fst (syncHandler Fixture.groupVersion c "default/job" s1) in
  Converged c s "default/job" 0 job (Fixture.owned (Some 2%Z)) /\
  ~ issued s1 s2 [].
Proof.
  intros c job s s1 s2. split; [fixture_converged|].
  intros H.
  assert (Hlen : length (calls s2) = length (calls s1))
    by (rewrite H; now rewrite app_nil_r).
  vm_compute in Hlen. discriminate Hlen.
Qed.

Lemma sync_converged_writes_status_only_witness :
  let c := Fixture.controller (Some (Fixture.owned (Some 2%Z))) in
  let job := Fixture.job "x" (Some 2%Z) in
  let s := Fixture.state job [] in
  let s1 := fst (syncHandler Fixture.groupVersion c "default/job" s) in
  let s2 := fst (syncHandler Fixture.groupVersion c "default/job" s1) in
  let statusWrite := UpdateInferenceJob "default" (withStatus job 1) in
  issued s s1 [statusWrite] /\
  Converged c s1 "default/job" 0 job (Fixture.owned (Some 2%Z)) /\
  issued s1 s2 [statusWrite] /\
  List.filter isDeploymentWrite [statusWrite] = [].
Proof.
  apply (sync_converged_writes_status_only Fixture.groupVersion
           (Fixture.controller (Some (Fixture.owned (Some 2%Z))))
           (Fixture.state (Fixture.job "x" (Some 2%Z)) [])
           "default/job" 0 (Fixture.job "x" (Some 2%Z))
           (Fixture.owned (Some 2%Z))).
  fixture_converged.
Defined.

Lemma sync_conflict_witness :
  exists s' e ev,
    syncHandler Fixture.groupVersion
      (Fixture.controller (Some (Fixture.unowned (Some 1%Z))))
      "default/job" (Fixture.state (Fixture.job "x" (Some 1%Z)) [])
    = (s', Ret (Some e)) /\
    issued (Fixture.state (Fixture.job "x" (Some 1%Z)) []) s' [] /\
    events s' = events (Fixture.state (Fixture.job "x" (Some 1%Z)) []) ++ [ev] /\
    ev_object ev = 0 /\
    ev_type ev = corev1.EventTypeWarning /\
    ev_reason ev = ErrResourceExists.
Proof.
  apply (sync_conflict Fixture.groupVersion
           (Fixture.controller (Some (Fixture.unowned (Some 1%Z))))
           (Fixture.state (Fixture.job "x" (Some 1%Z)) [])
           "default/job" 0 (Fixture.job "x" (Some 1%Z))
           (Fixture.unowned (Some 1%Z))).
  - fixture_cached.
  - reflexivity.
  - left. reflexivity.
Defined.

Lemma sync_update_once_witness :
  let job := Fixture.job "x" (Some 3%Z) in
  let s := Fixture.state job [] in
  exists s' out rest,
    syncHandler Fixture.groupVersion
      (Fixture.controller (Some (Fixture.owned (Some 1%Z)))) "default/job" s
    = (s', out) /\
    issued s s'
      (UpdateDeployment (metav1.Namespace (samplev1alpha1.ObjectMeta job))
         (newDeployment Fixture.groupVersion job) :: rest) /\
    List.filter isDeploymentWrite rest = [] /\
    appsv1.Replicas (appsv1.Spec (newDeployment Fixture.groupVersion job))
    = Some 3%Z.
Proof.
  apply (sync_update_once Fixture.groupVersion
           (Fixture.controller (Some (Fixture.owned (Some 1%Z))))
           (Fixture.state (Fixture.job "x" (Some 3%Z)) [])
           "default/job" 0 (Fixture.job "x" (Some 3%Z))
           (Fixture.owned (Some 1%Z)) 3%Z).
  - fixture_cached.
  - reflexivity.
  - reflexivity.
  - reflexivity.
  - exists 1%Z. split; [reflexivity | lia].
Defined.

Lemma sync_create_once_witness :
  let job := Fixture.job "x" (Some 3%Z) in
  let s := Fixture.state job [] in
  let meta := samplev1alpha1.ObjectMeta job in
  let created := newDeployment Fixture.groupVersion job in
  exists s' out rest,
    syncHandler Fixture.groupVersion (Fixture.controller None) "default/job" s
    = (s', out) /\
    issued s s' (CreateDeployment (metav1.Namespace meta) created :: rest) /\
    List.filter isDeploymentCreate rest = [] /\
    metav1.Name (appsv1.ObjectMeta created)
      = samplev1alpha1.DeploymentName (samplev1alpha1.Spec job) /\
    metav1.Namespace (appsv1.ObjectMeta created) = metav1.Namespace meta /\
    (exists r,
        metav1.OwnerReferences (appsv1.ObjectMeta created) = [r] /\
        metav1.ref_Controller r = Some true /\
        metav1.ref_Kind r = "InferenceJob" /\
        metav1.ref_Name r = metav1.Name meta /\
        metav1.ref_UID r = metav1.UID meta) /\
    metav1.IsControlledBy (appsv1.ObjectMeta created) meta = true.
Proof.
  apply (sync_create_once Fixture.groupVersion (Fixture.controller None)
           (Fixture.state (Fixture.job "x" (Some 3%Z)) [])
           "default/job" 0 (Fixture.job "x" (Some 3%Z))).
  - fixture_cached.
  - exists (errors.NewNotFound "x"). split; reflexivity.
Defined.

Lemma sync_nil_replicas_panics_witness :
  syncHandler Fixture.groupVersion
    (Fixture.controller (Some (Fixture.owned None))) "default/job"
    (Fixture.state (Fixture.job "x" (Some 3%Z)) [])
  = (Fixture.state (Fixture.job "x" (Some 3%Z)) [], Panic nilDereference).
Proof.
  apply (sync_nil_replicas_panics Fixture.groupVersion
           (Fixture.controller (Some (Fixture.owned None)))
           (Fixture.state (Fixture.job "x" (Some 3%Z)) [])
           "default/job" 0 (Fixture.job "x" (Some 3%Z))
           (Fixture.owned None) 3%Z).
  - fixture_cached.
  - reflexivity.
  - reflexivity.
  - reflexivity.
  - reflexivity.
Defined.

Lemma updateInferenceJobStatus_copies_witness :
  let job := Fixture.job "x" (Some 2%Z) in
  let s := Fixture.state job [] in
  let d := Fixture.owned (Some 2%Z) in
  exists s' err sent,
    updateInferenceJobStatus (Fixture.controller (Some d)) 0 d s
    = (s', Ret err) /\
    issued s s'
      [UpdateInferenceJob (metav1.Namespace (samplev1alpha1.ObjectMeta job))
         sent] /\
    sent = withStatus job (appsv1.AvailableReplicas (appsv1.Status d)) /\
    samplev1alpha1.Spec sent = samplev1alpha1.Spec job /\
    samplev1alpha1.ObjectMeta sent = samplev1alpha1.ObjectMeta job /\
    samplev1alpha1.AvailableReplicas (samplev1alpha1.Status sent)
      = appsv1.AvailableReplicas (appsv1.Status d) /\
    heap s' !! 0 = Some job /\
    (forall (q : ptr) (j : samplev1alpha1.InferenceJob),
        heap s !! q = Some j -> heap s' !! q = Some j) /\
    heap s' !! length (heap s) = Some sent.
Proof.
  apply (updateInferenceJobStatus_copies
           (Fixture.controller (Some (Fixture.owned (Some 2%Z)))) 0
           (Fixture.job "x" (Some 2%Z)) (Fixture.owned (Some 2%Z))
           (Fixture.state (Fixture.job "x" (Some 2%Z)) [])).
  reflexivity.
Defined.

Lemma sync_dropped_not_retried_witness :
  let c := Fixture.controller None in
  let s := Fixture.state (Fixture.job "x" None) [AnyString "a/b/c"] in
  (exists s',
      syncHandler Fixture.groupVersion c "a/b/c" s = (s', Ret None) /\
      issued s s' []) /\
  (exists s',
      processNextWorkItem Fixture.groupVersion c s = (s', Ret true) /\
      issued s s' [] /\
      queueOps s' = queueOps s
                    ++ [QForget (AnyString "a/b/c"); QDone (AnyString "a/b/c")] /\
      pending s' = []).
Proof.
  assert (Hdrop : Dropped (Fixture.controller None)
                    (Fixture.state (Fixture.job "x" None) [AnyString "a/b/c"])
                    "a/b/c")
    by (left; eexists; reflexivity).
  split.
  - exact (proj1 (sync_dropped_not_retried Fixture.groupVersion
                    (Fixture.controller None)
                    (Fixture.state (Fixture.job "x" None) [AnyString "a/b/c"])
                    "a/b/c" Hdrop)).
  - apply (proj2 (sync_dropped_not_retried Fixture.groupVersion
                    (Fixture.controller None)
                    (Fixture.state (Fixture.job "x" None) [AnyString "a/b/c"])
                    "a/b/c" Hdrop) []).
    reflexivity.
Defined.

Lemma handleObject_resolves_owner_witness :
  let c := Fixture.controller None in
  let job := Fixture.job "x" None in
  let s := Fixture.state job [] in
  let orphan :=
    Fixture.deployment "7" [Fixture.ownedBy "InferenceJob" "gone" "uid-gone"]
      None in
  handleObject c (AnyTombstone "default/x" (AnyDeployment orphan)) s
    = (s, Ret tt) /\
  exists s',
    handleObject c (AnyDeployment (Fixture.owned None)) s = (s', Ret tt) /\
    queueOps s' = queueOps s ++ [QAdd (AnyString "default/job")] /\
    In (AnyString "default/job") (pending s') /\
    handled s' = handled s /\
    (metav1.Namespace (samplev1alpha1.ObjectMeta job) <> EmptyString ->
     "default/job" = metav1.Namespace (samplev1alpha1.ObjectMeta job)
                     +:+ "/" +:+ metav1.Name (samplev1alpha1.ObjectMeta job)).
Proof.
  split.
  - apply (proj1 (handleObject_resolves_owner (Fixture.controller None)
                    (Fixture.state (Fixture.job "x" None) [])
                    (AnyTombstone "default/x"
                       (AnyDeployment
                          (Fixture.deployment "7"
                             [Fixture.ownedBy "InferenceJob" "gone" "uid-gone"]
                             None)))
                    _ (tombstone_deployment _ _ _))).
    right. eexists. split; [reflexivity|].
    right. eexists. reflexivity.
  - apply (proj2 (handleObject_resolves_owner (Fixture.controller None)
                    (Fixture.state (Fixture.job "x" None) [])
                    (AnyDeployment (Fixture.owned None))
                    _ (live_deployment _ _))
             (Fixture.ownedBy "InferenceJob" "job" "uid-job") 0
             (Fixture.job "x" None));
      reflexivity.
Defined.

Lemma deploymentUpdateFunc_skips_resync_witness :
  let c := Fixture.controller None in
  deploymentUpdateFunc c (AnyDeployment (Fixture.deployment "7" [] None))
    (AnyDeployment (Fixture.deployment "7" [] (Some 4%Z)))
  = ret tt /\
  deploymentUpdateFunc c (AnyDeployment (Fixture.deployment "7" [] None))
    (AnyDeployment (Fixture.deployment "8" [] (Some 4%Z)))
  = handleObject c (AnyDeployment (Fixture.deployment "8" [] (Some 4%Z))).
Proof.
  split.
  - apply (proj1 (deploymentUpdateFunc_skips_resync (Fixture.controller None)
                    (Fixture.deployment "7" [] None)
                    (Fixture.deployment "7" [] (Some 4%Z)))).
    reflexivity.
  - apply (proj2 (deploymentUpdateFunc_skips_resync (Fixture.controller None)
                    (Fixture.deployment "7" [] None)
                    (Fixture.deployment "8" [] (Some 4%Z)))).
    intros H. discriminate H.
Defined.

(** * Beyond the claims *)

(** ** Every way through [syncHandler] *)

Lemma syncHandler_cases (gv : schema.GroupVersion) (c : Controller)
  (key : string) (s : State) :
  (Dropped c s key /\
   exists e, syncHandler gv c key s = (log_handled e s, Ret None)) \/
  (exists namespace name e,
      cache.SplitMetaNamespaceKey key = Ok (namespace, name) /\
      inferenceJobsLister c namespace name = Err e /\
      errors.IsNotFound (Some e) = false /\
      syncHandler gv c key s = (s, Ret (Some e))) \/
  (exists namespace name p,
      cache.SplitMetaNamespaceKey key = Ok (namespace, name) /\
      inferenceJobsLister c namespace name = Ok p /\
      heap s !! p = None /\
      syncHandler gv c key s = (s, Panic nilDereference)) \/
  (exists p job,
      Cached c s key p job /\
      syncHandler gv c key s = reconcile gv c p job s).
Proof.
  destruct (cache.SplitMetaNamespaceKey key) as [[namespace name]|e] eqn:Hsplit.
  - destruct (inferenceJobsLister c namespace name) as [p|e] eqn:Hget.
    + destruct (heap s !! p) as [job|] eqn:Hjob.
      * destruct (String.eqb_spec
                    (samplev1alpha1.DeploymentName (samplev1alpha1.Spec job))
                    EmptyString) as [Hempty|Hname].
        -- left.
           assert (Hdrop : Dropped c s key)
             by (right; right; now exists namespace, name, p, job).
           split; [exact Hdrop | now apply sync_dropped_run].
        -- right. right. right. exists p, job.
           assert (Hc : Cached c s key p job)
             by (split; [now exists namespace, name | exact Hjob | exact Hname]).
           split; [exact Hc | now apply syncHandler_run].
      * right. right. left. exists namespace, name, p.
        repeat (split; [assumption|]).
        unfold syncHandler. rewrite Hsplit, Hget. cbv beta iota.
        unfold bind, load. now rewrite Hjob.
    + destruct (errors.IsNotFound (Some e)) eqn:HnotFound.
      * left.
        assert (Hdrop : Dropped c s key)
          by (right; left; now exists namespace, name, e).
        split; [exact Hdrop | now apply sync_dropped_run].
      * right. left. exists namespace, name, e.
        repeat (split; [assumption|]).
        unfold syncHandler. now rewrite Hsplit, Hget, HnotFound.
  - left.
    assert (Hdrop : Dropped c s key) by (left; now exists e).
    split; [exact Hdrop | now apply sync_dropped_run].
Qed.

(** Every branch of the closed form, one goal each. *)
Ltac reconcile_cases :=
  unfold reconcile, checkOwner, converge, writeBack;
  repeat match goal with
    | |- context [match ?x with _ => _ end] => destruct x eqn:?
    end.

Lemma reconcile_queue (gv : schema.GroupVersion) (c : Controller) (p : ptr)
  (job : samplev1alpha1.InferenceJob) (s : State) :
  pending (fst (reconcile gv c p job s)) = pending s /\
  queueOps (fst (reconcile gv c p job s)) = queueOps s.
Proof. reconcile_cases; split; reflexivity. Qed.

Lemma reconcile_heap (gv : schema.GroupVersion) (c : Controller) (p : ptr)
  (job : samplev1alpha1.InferenceJob) (s : State) :
  exists copies,
    heap (fst (reconcile gv c p job s)) = heap s ++ copies /\
    length copies <= 1.
Proof.
  reconcile_cases; cbn [fst heap log_call log_event set_heap];
    first [ exists []; split; [now rewrite app_nil_r | cbn; lia]
          | eexists [_]; split; [reflexivity | cbn; lia] ].
Qed.

(** X1.  Whatever the controller, the key and the state, [syncHandler]
    leaves the work queue alone (no item added or taken, no queue call)
    and changes no object of the heap: the heap grows by at most one
    object, the copy that carries the status. *)
Theorem syncHandler_leaves_queue_and_cache (gv : schema.GroupVersion)
  (c : Controller) (key : string) (s : State) :
  let s' := fst (syncHandler gv c key s) in
  pending s' = pending s /\
  queueOps s' = queueOps s /\
  exists copies, heap s' = heap s ++ copies /\ length copies <= 1.
Proof.
  intros s'. subst s'.
  destruct (syncHandler_cases gv c key s)
    as [(_ & e & ->) | [(ns & n & e & _ & _ & _ & ->)
       | [(ns & n & p & _ & _ & _ & ->) | (p & job & _ & ->)]]].
  - repeat split. exists []. split; [now rewrite app_nil_r | cbn; lia].
  - repeat split. exists []. split; [now rewrite app_nil_r | cbn; lia].
  - repeat split. exists []. split; [now rewrite app_nil_r | cbn; lia].
  - destruct (reconcile_queue gv c p job s) as [Hp Hq].
    split; [exact Hp|]. split; [exact Hq|]. apply reconcile_heap.
Qed.

(** X2.  The write calls of one [syncHandler] call are, in this order, at
    most one Deployment create, at most one Deployment update and at most
    one InferenceJob update; there are none unless the key names a cached
    InferenceJob with a target, both Deployment calls send
    [newDeployment] of that job in its namespace, and the InferenceJob
    call sends that job with some status. *)
Theorem syncHandler_orders_writes (gv : schema.GroupVersion) (c : Controller)
  (key : string) (s : State) :
  exists new,
    issued s (fst (syncHandler gv c key s)) new /\
    (new = [] \/
     exists p job available,
       Cached c s key p job /\
       sublist new
         [CreateDeployment (metav1.Namespace (samplev1alpha1.ObjectMeta job))
            (newDeployment gv job);
          UpdateDeployment (metav1.Namespace (samplev1alpha1.ObjectMeta job))
            (newDeployment gv job);
          UpdateInferenceJob (metav1.Namespace (samplev1alpha1.ObjectMeta job))
            (withStatus job available)]).
Proof.
  destruct (syncHandler_cases gv c key s)
    as [(_ & e & ->) | [(ns & n & e & _ & _ & _ & ->)
       | [(ns & n & p & _ & _ & _ & ->) | (p & job & Hc & ->)]]];
    try (exists []; split; [unfold issued; cbn [fst calls log_handled];
                            now rewrite app_nil_r | now left]).
  assert (Hall : exists new available,
    issued s (fst (reconcile gv c p job s)) new /\
    sublist new
      [CreateDeployment (metav1.Namespace (samplev1alpha1.ObjectMeta job))
         (newDeployment gv job);
       UpdateDeployment (metav1.Namespace (samplev1alpha1.ObjectMeta job))
         (newDeployment gv job);
       UpdateInferenceJob (metav1.Namespace (samplev1alpha1.ObjectMeta job))
         (withStatus job available)]).
  { reconcile_cases;
      first
        [ exists [], 0%Z; split;
          [unfold issued; cbn [fst calls log_event]; now rewrite app_nil_r
          | apply sublist_nil_l]
        | eexists _, _; split; [solve_issued|];
          repeat first [ apply sublist_nil_l
                       | apply sublist_skip
                       | apply sublist_cons ] ].
    Unshelve. all: exact 0%Z. }
  destruct Hall as (new & available & Hissued & Hsub).
  exists new. split; [exact Hissued|]. right. now exists p, job, available.
Qed.

(** The events of a state reached through the logs. *)
Ltac solve_events :=
  cbn [events fst log_call log_event log_handled log_queueOp set_heap
       set_pending];
  first [ reflexivity | now rewrite app_nil_r ].

(** X5.  When [syncHandler] returns nil for a cached InferenceJob with a
    target, its last write call was the update of that job with a new
    status, the API accepted it, and exactly the Synced event was
    recorded. *)
Theorem syncHandler_nil_means_status_written (gv : schema.GroupVersion)
  (c : Controller) (s s' : State) (key : string) (p : ptr)
  (job : samplev1alpha1.InferenceJob) :
  Cached c s key p job ->
  syncHandler gv c key s = (s', Ret None) ->
  exists new available accepted,
    issued s s' new /\
    last new
    = Some (UpdateInferenceJob
              (metav1.Namespace (samplev1alpha1.ObjectMeta job))
              (withStatus job available)) /\
    inferenceJobs_Update (sampleclientset c)
      (metav1.Namespace (samplev1alpha1.ObjectMeta job))
      (withStatus job available) = Ok accepted /\
    events s' = events s
                ++ [{| ev_object := p; ev_type := corev1.EventTypeNormal;
                       ev_reason := SuccessSynced;
                       ev_message := Literal MessageResourceSynced |}].
Proof.
  intros Hc. rewrite (syncHandler_run gv c s key p job Hc).
  reconcile_cases; intros Hrun; try discriminate Hrun;
    injection Hrun as <-; eexists _, _, _;
    (split; [solve_issued|]);
    (split; [reflexivity|]);
    (split; [eassumption | reflexivity]).
Qed.
(** X4.  One [syncHandler] call records at most one event.  A Warning
    event has reason ErrResourceExists and comes with an error return
    that carries the event's message; a Normal event has reason Synced and
    comes with a nil return. *)
Theorem syncHandler_event_matches_result (gv : schema.GroupVersion)
  (c : Controller) (key : string) (s : State) :
  let s' := fst (syncHandler gv c key s) in
  let out := snd (syncHandler gv c key s) in
  events s' = events s \/
  exists ev,
    events s' = events s ++ [ev] /\
    ((ev_type ev = corev1.EventTypeWarning /\
      ev_reason ev = ErrResourceExists /\
      out = Ret (Some (Errorf (ev_message ev)))) \/
     (ev_type ev = corev1.EventTypeNormal /\
      ev_reason ev = SuccessSynced /\
      out = Ret None)).
Proof.
  intros s' out. subst s' out.
  destruct (syncHandler_cases gv c key s)
    as [(_ & e & ->) | [(ns & n & e & _ & _ & _ & ->)
       | [(ns & n & p & _ & _ & _ & ->) | (p & job & Hc & ->)]]];
    try (left; reflexivity).
  reconcile_cases;
    first
      [ left; solve_events
      | right; eexists; split; [solve_events|];
        first [ left; repeat split; reflexivity
              | right; repeat split; reflexivity ] ].
Qed.



(** What the client said to a call, in a hypothesis, put to use. *)
Ltac use_answer :=
  unfold answer in *;
  repeat match goal with
    | H : ?x = Ok _ |- context [?x] => rewrite H
    | H : ?x = Err _ |- context [?x] => rewrite H
    | H : ?x = Ok _, H' : context [?x] |- _ => rewrite H in H'
    | H : ?x = Err _, H' : context [?x] |- _ => rewrite H in H'
    end.

(** X3.  [syncHandler] stops at the first write call the API refuses:
    every call before the last one was accepted, and when the last one is
    refused its error is what [syncHandler] returns, with no event
    recorded. *)
Theorem syncHandler_stops_at_failed_write (gv : schema.GroupVersion)
  (c : Controller) (key : string) (s : State) :
  let s' := fst (syncHandler gv c key s) in
  let out := snd (syncHandler gv c key s) in
  exists new,
    issued s s' new /\
    Forall (fun call => answer c call = None) (removelast new) /\
    (forall call e,
        last new = Some call -> answer c call = Some e ->
        out = Ret (Some e) /\ events s' = events s).
Proof.
  intros s' out. subst s' out.
  destruct (syncHandler_cases gv c key s)
    as [(_ & e & ->) | [(ns & n & e & _ & _ & _ & ->)
       | [(ns & n & p & _ & _ & _ & ->) | (p & job & Hc & ->)]]];
    try (exists []; split; [unfold issued; cbn [fst calls log_handled];
                            now rewrite app_nil_r|];
         split; [constructor | intros call e' Hlast; discriminate Hlast]).
  reconcile_cases;
    first
      [ exists []; split; [unfold issued; cbn [fst calls log_event];
                           now rewrite app_nil_r|];
        split; [constructor | intros call e' Hlast; discriminate Hlast]
      | eexists; split; [solve_issued|];
        split;
        [ cbn [app removelast]; repeat constructor; use_answer; reflexivity
        | intros call e' Hlast Hanswer; cbn [app last] in Hlast;
          injection Hlast as <-; use_answer;
          first [ discriminate Hanswer
                | injection Hanswer as <-; split; [reflexivity | solve_events] ] ] ].
Qed.

(** ** The worker *)

Lemma workqueue_Get_run (s : State) (item : Any) (q : list Any) :
  pending s = item :: q ->
  workqueue_Get s = (set_pending q s, Ret (item, false)).
Proof. intros H. unfold workqueue_Get. now rewrite H. Qed.

(** One turn of the worker on a key, from what [syncHandler] does. *)
Lemma processNextWorkItem_key_run (gv : schema.GroupVersion) (c : Controller)
  (s s1 : State) (key : string) (q : list Any)
  (out : Outcome (option error)) :
  pending s = AnyString key :: q ->
  syncHandler gv c key (set_pending q s) = (s1, out) ->
  processNextWorkItem gv c s =
  match out with
  | Ret None =>
      (log_queueOp (QDone (AnyString key))
         (log_queueOp (QForget (AnyString key)) s1), Ret true)
  | Ret (Some e) =>
      (log_handled (requeueError key e)
         (log_queueOp (QDone (AnyString key))
            (log_queueOp (QAddRateLimited (AnyString key)) s1)), Ret true)
  | Panic why => (log_queueOp (QDone (AnyString key)) s1, Panic why)
  end.
Proof.
  intros Hq Hsync. unfold processNextWorkItem.
  rewrite (bind_run _ _ _ _ _ (workqueue_Get_run s _ q Hq)). cbn [fst snd].
  unfold defer, bind at 1 2. rewrite Hsync.
  destruct out as [[e|]|why]; reflexivity.
Qed.

(** One turn of the worker on an item that is not a string. *)
Lemma processNextWorkItem_other_run (gv : schema.GroupVersion) (c : Controller)
  (s : State) (item : Any) (q : list Any) :
  pending s = item :: q ->
  (forall key, item <> AnyString key) ->
  processNextWorkItem gv c s =
  (log_queueOp (QDone item)
     (log_handled invalidItemError
        (log_queueOp (QForget item) (set_pending q s))), Ret true).
Proof.
  intros Hq Hother. unfold processNextWorkItem.
  rewrite (bind_run _ _ _ _ _ (workqueue_Get_run s _ q Hq)). cbn [fst snd].
  destruct item as [d | p | k o | key |]; try reflexivity.
  now destruct (Hother key).
Qed.

Lemma syncHandler_queue (gv : schema.GroupVersion) (c : Controller)
  (key : string) (s : State) :
  pending (fst (syncHandler gv c key s)) = pending s /\
  queueOps (fst (syncHandler gv c key s)) = queueOps s.
Proof.
  destruct (syncHandler_cases gv c key s)
    as [(_ & e & ->) | [(ns & n & e & _ & _ & _ & ->)
       | [(ns & n & p & _ & _ & _ & ->) | (p & job & _ & ->)]]];
    try (split; reflexivity).
  apply reconcile_queue.
Qed.

(** One turn of the worker on a queue that is not empty: the head item is
    taken, the queue calls made end with its [Done], and the turn either
    answers true after a [Forget] or an [AddRateLimited], or panics after
    neither. *)
Lemma processNextWorkItem_step (gv : schema.GroupVersion) (c : Controller)
  (s : State) (item : Any) (q : list Any) :
  pending s = item :: q ->
  exists s' out ops,
    processNextWorkItem gv c s = (s', out) /\
    pending s' = q /\
    queueOps s' = queueOps s ++ ops ++ [QDone item] /\
    ((out = Ret true /\
      (ops = [QForget item] \/ ops = [QAddRateLimited item])) \/
     (ops = [] /\ exists why, out = Panic why)).
Proof.
  intros Hq.
  assert (Hstring : (exists key, item = AnyString key) \/
                    (forall key, item <> AnyString key))
    by (destruct item; try (right; intros key' H; discriminate H);
        left; now eexists).
  destruct Hstring as [(key & ->) | Hother].
  - destruct (syncHandler gv c key (set_pending q s)) as [s1 out] eqn:Hsync.
    destruct (syncHandler_queue gv c key (set_pending q s)) as [Hp1 Hq1].
    rewrite Hsync in Hp1, Hq1. cbn [fst pending queueOps set_pending] in Hp1, Hq1.
    rewrite (processNextWorkItem_key_run gv c s s1 key q out Hq Hsync).
    destruct out as [[e|]|why];
      [ exists (log_handled (requeueError key e)
                  (log_queueOp (QDone (AnyString key))
                     (log_queueOp (QAddRateLimited (AnyString key)) s1))),
               (Ret true), [QAddRateLimited (AnyString key)]
      | exists (log_queueOp (QDone (AnyString key))
                  (log_queueOp (QForget (AnyString key)) s1)),
               (Ret true), [QForget (AnyString key)]
      | exists (log_queueOp (QDone (AnyString key)) s1), (Panic why), [] ];
      (split; [reflexivity|]);
      (split; [exact Hp1|]);
      cbn [queueOps log_queueOp log_handled]; rewrite Hq1, <- ?app_assoc;
      (split; [reflexivity|]).
    + left. split; [reflexivity | now right].
    + left. split; [reflexivity | now left].
    + right. split; [reflexivity | now eexists].
  - rewrite (processNextWorkItem_other_run gv c s item q Hq Hother).
    exists (log_queueOp (QDone item)
              (log_handled invalidItemError
                 (log_queueOp (QForget item) (set_pending q s)))),
           (Ret true), [QForget item].
    split; [reflexivity|]. split; [reflexivity|].
    cbn [queueOps log_queueOp log_handled set_pending]. rewrite <- ?app_assoc.
    split; [reflexivity|]. left. split; [reflexivity | now left].
Qed.

(** X8.  When [syncHandler] returns an error for the key at the head of
    the queue, [processNextWorkItem] calls [AddRateLimited] and then [Done]
    on it, never [Forget], hands the wrapped error to [HandleError], and
    answers true. *)
Theorem worker_requeues_failed_key (gv : schema.GroupVersion) (c : Controller)
  (s s1 : State) (key : string) (q : list Any) (e : error) :
  pending s = AnyString key :: q ->
  syncHandler gv c key (set_pending q s) = (s1, Ret (Some e)) ->
  exists s',
    processNextWorkItem gv c s = (s', Ret true) /\
    queueOps s' = queueOps s
                  ++ [QAddRateLimited (AnyString key); QDone (AnyString key)] /\
    handled s' = handled s1 ++ [requeueError key e] /\
    pending s' = q.
Proof.
  intros Hq Hsync.
  destruct (syncHandler_queue gv c key (set_pending q s)) as [Hp1 Hq1].
  rewrite Hsync in Hp1, Hq1. cbn [fst pending queueOps set_pending] in Hp1, Hq1.
  rewrite (processNextWorkItem_key_run gv c s s1 key q _ Hq Hsync).
  eexists. split; [reflexivity|].
  cbn [queueOps handled pending log_queueOp log_handled].
  rewrite Hq1, <- app_assoc. now repeat split.
Qed.

(** X9.  When [syncHandler] panics, the deferred [Done] is still called
    on the key, with no [Forget] and no [AddRateLimited]; no error is
    handled and the panic goes on. *)
Theorem worker_done_despite_panic (gv : schema.GroupVersion) (c : Controller)
  (s s1 : State) (key : string) (q : list Any) (why : string) :
  pending s = AnyString key :: q ->
  syncHandler gv c key (set_pending q s) = (s1, Panic why) ->
  exists s',
    processNextWorkItem gv c s = (s', Panic why) /\
    queueOps s' = queueOps s ++ [QDone (AnyString key)] /\
    handled s' = handled s1 /\
    pending s' = q.
Proof.
  intros Hq Hsync.
  destruct (syncHandler_queue gv c key (set_pending q s)) as [Hp1 Hq1].
  rewrite Hsync in Hp1, Hq1. cbn [fst pending queueOps set_pending] in Hp1, Hq1.
  rewrite (processNextWorkItem_key_run gv c s s1 key q _ Hq Hsync).
  eexists. split; [reflexivity|].
  cbn [queueOps handled pending log_queueOp log_handled].
  rewrite Hq1. now repeat split.
Qed.

(** X10.  An item of the queue that is not a string is forgotten:
    [Forget], one handled error, [Done], the answer true, and
    [syncHandler] not run (no write call, no event, the heap as it was). *)
Theorem worker_forgets_invalid_item (gv : schema.GroupVersion) (c : Controller)
  (s : State) (item : Any) (q : list Any) :
  pending s = item :: q ->
  (forall key, item <> AnyString key) ->
  exists s',
    processNextWorkItem gv c s = (s', Ret true) /\
    queueOps s' = queueOps s ++ [QForget item; QDone item] /\
    handled s' = handled s ++ [invalidItemError] /\
    pending s' = q /\
    calls s' = calls s /\ events s' = events s /\ heap s' = heap s.
Proof.
  intros Hq Hother.
  rewrite (processNextWorkItem_other_run gv c s item q Hq Hother).
  eexists. split; [reflexivity|].
  cbn [queueOps handled pending calls events heap log_queueOp log_handled
       set_pending].
  rewrite <- app_assoc. now repeat split.
Qed.

(** X11.  Every turn of [processNextWorkItem] on a queue that is not
    empty takes exactly the head item and ends its queue calls with one
    [Done] on it, after a single [Forget] or a single [AddRateLimited]
    when it answers true, after neither when it panics. *)
Theorem worker_marks_done_once (gv : schema.GroupVersion) (c : Controller)
  (s : State) (item : Any) (q : list Any) :
  pending s = item :: q ->
  exists s' out ops,
    processNextWorkItem gv c s = (s', out) /\
    pending s' = q /\
    queueOps s' = queueOps s ++ ops ++ [QDone item] /\
    ((out = Ret true /\
      (ops = [QForget item] \/ ops = [QAddRateLimited item])) \/
     (ops = [] /\ exists why, out = Panic why)).
Proof. apply processNextWorkItem_step. Qed.



(** ** Keys, there and back *)

Lemma HasPrefix_slash (c : Ascii.ascii) (s : string) :
  strings.HasPrefix (String c s) "/" = Ascii.eqb c "/"%char.
Proof.
  change (strings.HasPrefix (String c s) "/")
    with (if Ascii.eqb "/"%char c then strings.HasPrefix s EmptyString else false).
  rewrite HasPrefix_empty, (Ascii.eqb_sym "/"%char c).
  now destruct (Ascii.eqb c "/"%char).
Qed.

Lemma Split_go_slashFree (s cur : string) :
  slashFree s = true -> strings.Split_go "/" 0 cur s = [cur +:+ s].
Proof.
  revert cur. induction s as [|c s IH]; intros cur Hfree.
  - cbn. now rewrite append_empty_r.
  - cbn [slashFree] in Hfree. apply andb_prop in Hfree as [Hc Hs].
    apply negb_true_iff in Hc.
    rewrite Split_go_scan, HasPrefix_slash, Hc, (IH _ Hs).
    now rewrite append_snoc.
Qed.

Lemma Split_go_slash (a b cur : string) :
  slashFree a = true ->
  strings.Split_go "/" 0 cur (a +:+ String "/"%char b)
  = (cur +:+ a) :: strings.Split_go "/" 0 EmptyString b.
Proof.
  revert cur. induction a as [|c a IH]; intros cur Hfree.
  - change (EmptyString +:+ String "/"%char b) with (String "/"%char b).
    rewrite Split_go_scan, HasPrefix_slash.
    change (Ascii.eqb "/"%char "/"%char) with true. cbv beta iota.
    now rewrite append_empty_r.
  - cbn [slashFree] in Hfree. apply andb_prop in Hfree as [Hc Ha].
    apply negb_true_iff in Hc.
    rewrite append_cons, Split_go_scan, HasPrefix_slash, Hc, (IH _ Ha).
    now rewrite append_snoc.
Qed.

Lemma SplitMetaNamespaceKey_MetaNamespaceKey (m : metav1.ObjectMeta) :
  slashFree (metav1.Namespace m) = true ->
  slashFree (metav1.Name m) = true ->
  cache.SplitMetaNamespaceKey (cache.MetaNamespaceKey m)
  = Ok (metav1.Namespace m, metav1.Name m).
Proof.
  intros Hns Hname.
  unfold cache.MetaNamespaceKey, cache.SplitMetaNamespaceKey, strings.Split.
  destruct (metav1.Namespace m) as [|c ns] eqn:E.
  - cbn [String.length Nat.ltb Nat.leb]. now rewrite (Split_go_slashFree _ _ Hname).
  - cbn [String.length Nat.ltb Nat.leb].
    change (String c ns +:+ "/" +:+ metav1.Name m)
      with (String c ns +:+ String "/"%char (metav1.Name m)).
    rewrite (Split_go_slash _ _ _ Hns), (Split_go_slashFree _ _ Hname).
    reflexivity.
Qed.

Lemma enqueueInferenceJob_run (s : State) (p : ptr)
  (job : samplev1alpha1.InferenceJob) :
  heap s !! p = Some job ->
  enqueueInferenceJob (AnyInferenceJob p) s
  = workqueue_Add
      (AnyString (cache.MetaNamespaceKey (samplev1alpha1.ObjectMeta job))) s.
Proof.
  intros Hjob.
  assert (Hkey : MetaNamespaceKeyFunc (AnyInferenceJob p) s
                 = (s, Ret (Ok (cache.MetaNamespaceKey
                                  (samplev1alpha1.ObjectMeta job))))).
  { unfold MetaNamespaceKeyFunc.
    now rewrite (bind_run _ _ _ _ _ (asObject_inferenceJob_run _ _ _ Hjob)). }
  unfold enqueueInferenceJob. now rewrite (bind_run _ _ _ _ _ Hkey).
Qed.

(** X14.  The key that [enqueueInferenceJob] adds for an InferenceJob
    whose namespace and name have no slash splits back into that
    namespace and that name; when the lister returns the job for them and
    the job has a target, [syncHandler] on that key works on that job. *)
Theorem enqueued_key_names_the_job (c : Controller) (s : State) (p : ptr)
  (job : samplev1alpha1.InferenceJob) :
  let meta := samplev1alpha1.ObjectMeta job in
  heap s !! p = Some job ->
  slashFree (metav1.Namespace meta) = true ->
  slashFree (metav1.Name meta) = true ->
  exists s' key,
    enqueueInferenceJob (AnyInferenceJob p) s = (s', Ret tt) /\
    queueOps s' = queueOps s ++ [QAdd (AnyString key)] /\
    In (AnyString key) (pending s') /\
    cache.SplitMetaNamespaceKey key
    = Ok (metav1.Namespace meta, metav1.Name meta) /\
    (inferenceJobsLister c (metav1.Namespace meta) (metav1.Name meta) = Ok p ->
     samplev1alpha1.DeploymentName (samplev1alpha1.Spec job) <> EmptyString ->
     Cached c s' key p job).
Proof.
  intros meta Hjob Hns Hname.
  rewrite (enqueueInferenceJob_run s p job Hjob). fold meta.
  exists (fst (workqueue_Add (AnyString (cache.MetaNamespaceKey meta)) s)),
         (cache.MetaNamespaceKey meta).
  pose proof (SplitMetaNamespaceKey_MetaNamespaceKey meta Hns Hname) as Hsplit.
  split; [reflexivity|].
  split; [reflexivity|].
  split; [apply workqueue_Add_pending|].
  split; [exact Hsplit|].
  intros Hget Htarget. split.
  - now exists (metav1.Namespace meta), (metav1.Name meta).
  - exact Hjob.
  - exact Htarget.
Qed.


(** ** More on the Owner Resolver *)

Lemma handleObject_enqueue_run (c : Controller) (s : State) (obj : Any)
  (object : metav1.ObjectMeta) (r : metav1.OwnerReference) (p : ptr)
  (job : samplev1alpha1.InferenceJob) :
  Delivers s obj object ->
  metav1.GetControllerOf object = Some r ->
  metav1.ref_Kind r = "InferenceJob" ->
  inferenceJobsLister c (metav1.Namespace object) (metav1.ref_Name r) = Ok p ->
  heap s !! p = Some job ->
  handleObject c obj s
  = workqueue_Add
      (AnyString (cache.MetaNamespaceKey (samplev1alpha1.ObjectMeta job))) s.
Proof.
  intros Hobj Hr Hkind Hget Hjob.
  unfold handleObject.
  rewrite (bind_run _ _ _ _ _ (decodeObject_run s obj object Hobj)).
  cbv beta iota. rewrite Hr, Hkind, Hget.
  change (String.eqb "InferenceJob" "InferenceJob") with true.
  cbn [negb].
  now apply enqueueInferenceJob_run.
Qed.

Lemma decodeObject_cases (obj : Any) (s : State) :
  (exists object, decodeObject obj s = (s, Ret (Some object))) \/
  (exists e, decodeObject obj s = (log_handled e s, Ret None)) \/
  (exists why, decodeObject obj s = (s, Panic why)).
Proof.
  unfold decodeObject, asObject, bind, load, deref, ret, panic, HandleError.
  destruct obj as [d | p | key inner | key |].
  - left. now eexists.
  - destruct (heap s !! p) as [j|]; [left | right; right]; now eexists.
  - destruct inner as [d | p | key' inner' | key' |];
      try (right; left; now eexists).
    + left. now eexists.
    + destruct (heap s !! p) as [j|]; [left | right; right]; now eexists.
  - right. left. now eexists.
  - right. left. now eexists.
Qed.

Lemma enqueueInferenceJob_cases (p : ptr) (s : State) :
  (exists key, enqueueInferenceJob (AnyInferenceJob p) s
               = workqueue_Add (AnyString key) s) \/
  (exists why, enqueueInferenceJob (AnyInferenceJob p) s = (s, Panic why)).
Proof.
  unfold enqueueInferenceJob, MetaNamespaceKeyFunc, asObject, bind, load,
    deref, ret, panic.
  destruct (heap s !! p) as [j|]; [left | right]; now eexists.
Qed.

(** X16.  For every input [handleObject] makes no write call, records no
    event and leaves the heap as it is. *)
Theorem handleObject_never_writes (c : Controller) (obj : Any) (s : State) :
  let s' := fst (handleObject c obj s) in
  calls s' = calls s /\ events s' = events s /\ heap s' = heap s.
Proof.
  cbv zeta. unfold handleObject.
  destruct (decodeObject_cases obj s)
    as [(object & Hd) | [(e & Hd) | (why & Hd)]].
  - rewrite (bind_run _ _ _ _ _ Hd). cbv beta iota.
    destruct (metav1.GetControllerOf object) as [r|]; [|now repeat split].
    destruct (negb _); [now repeat split|].
    destruct (inferenceJobsLister c _ _) as [p|e]; [|now repeat split].
    destruct (enqueueInferenceJob_cases p s) as [(key & ->) | (why & ->)];
      now repeat split.
  - rewrite (bind_run _ _ _ _ _ Hd). now repeat split.
  - unfold bind. rewrite Hd. now repeat split.
Qed.

(** X17.  [handleObject] treats the tombstone of a Deployment or of an
    InferenceJob as it treats the object itself. *)
Theorem handleObject_sees_through_tombstones (c : Controller) (key : string)
  (obj : Any) (s : State) :
  notAnObject obj = false ->
  handleObject c (AnyTombstone key obj) s = handleObject c obj s.
Proof.
  intros H. destruct obj as [d | p | k o | k |]; try discriminate H.
  - reflexivity.
  - unfold handleObject. destruct (heap s !! p) as [j|] eqn:Hj.
    + now rewrite
        (bind_run _ _ _ _ _
           (decodeObject_run s _ _ (tombstone_inferenceJob s key p j Hj))),
        (bind_run _ _ _ _ _
           (decodeObject_run s _ _ (live_inferenceJob s p j Hj))).
    + assert (Hlive : decodeObject (AnyInferenceJob p) s
                      = (s, Panic nilDereference))
        by (unfold decodeObject, asObject, bind, load; now rewrite Hj).
      assert (Htomb : decodeObject (AnyTombstone key (AnyInferenceJob p)) s
                      = (s, Panic nilDereference))
        by (unfold decodeObject;
            change (asObject (AnyTombstone key (AnyInferenceJob p)))
              with (@ret (option metav1.ObjectMeta) None);
            rewrite bind_ret; cbv beta iota;
            unfold asObject, bind, load; now rewrite Hj).
      unfold bind. now rewrite Hlive, Htomb.
Qed.

(** X18.  [handleObject] on a value that is neither an object nor a
    tombstone that wraps one hands one error to [HandleError]; it adds
    nothing to the queue and does not panic. *)
Theorem handleObject_reports_undecodable (c : Controller) (obj : Any)
  (s : State) :
  undecodable obj = true ->
  exists e, handleObject c obj s = (log_handled e s, Ret tt).
Proof.
  intros H. unfold handleObject, decodeObject, asObject.
  destruct obj as [d | p | key inner | key |]; try discriminate H;
    [destruct inner as [d | p | key' inner' | key' |]; try discriminate H|..];
    eexists; reflexivity.
Qed.

(** X19.  The owner reference that [newDeployment] sets lets
    [handleObject] find the job: given the Deployment built for a cached
    InferenceJob, it adds the key of that job to the work queue and
    handles no error. *)
Theorem handleObject_finds_creator (gv : schema.GroupVersion) (c : Controller)
  (s : State) (p : ptr) (job : samplev1alpha1.InferenceJob) :
  let meta := samplev1alpha1.ObjectMeta job in
  inferenceJobsLister c (metav1.Namespace meta) (metav1.Name meta) = Ok p ->
  heap s !! p = Some job ->
  exists s',
    handleObject c (AnyDeployment (newDeployment gv job)) s = (s', Ret tt) /\
    queueOps s' = queueOps s ++ [QAdd (AnyString (cache.MetaNamespaceKey meta))] /\
    In (AnyString (cache.MetaNamespaceKey meta)) (pending s') /\
    handled s' = handled s.
Proof.
  intros meta Hget Hjob.
  rewrite (handleObject_enqueue_run c s (AnyDeployment (newDeployment gv job))
             _ _ p job (live_deployment s _) eq_refl eq_refl Hget Hjob).
  fold meta.
  exists (fst (workqueue_Add (AnyString (cache.MetaNamespaceKey meta)) s)).
  split; [reflexivity|]. split; [reflexivity|].
  split; [apply workqueue_Add_pending | reflexivity].
Qed.

(** ** More on the Sync Handler *)

Lemma sync_conflict_run (gv : schema.GroupVersion) (c : Controller) (s : State)
  (key : string) (p : ptr) (job : samplev1alpha1.InferenceJob)
  (d : appsv1.Deployment) :
  Cached c s key p job -> Targets c job d -> notControlledBy d job ->
  syncHandler gv c key s
  = (log_event (conflictEvent p d) s,
     Ret (Some (Errorf (ev_message (conflictEvent p d))))).
Proof.
  intros H Hd Hn. apply IsControlledBy_false in Hn.
  rewrite (syncHandler_run gv c s key p job H).
  unfold reconcile. rewrite Hd. unfold checkOwner. now rewrite Hn.
Qed.

(** X6.  An error of a lister that is not a NotFound is returned by
    [syncHandler] as it is, from the InferenceJob lister as from the
    Deployment lister, and nothing else happens: no write call (no create
    in particular), no event, no error handled. *)
Theorem syncHandler_passes_lister_errors (gv : schema.GroupVersion)
  (c : Controller) (s : State) (key : string) (e : error) :
  errors.IsNotFound (Some e) = false ->
  (forall namespace name,
      cache.SplitMetaNamespaceKey key = Ok (namespace, name) ->
      inferenceJobsLister c namespace name = Err e ->
      syncHandler gv c key s = (s, Ret (Some e))) /\
  (forall p job,
      Cached c s key p job ->
      deploymentsLister c (metav1.Namespace (samplev1alpha1.ObjectMeta job))
        (samplev1alpha1.DeploymentName (samplev1alpha1.Spec job)) = Err e ->
      syncHandler gv c key s = (s, Ret (Some e))).
Proof.
  intros He. split.
  - intros namespace name Hsplit Hget.
    unfold syncHandler. now rewrite Hsplit, Hget, He.
  - intros p job Hc Hget.
    rewrite (syncHandler_run gv c s key p job Hc).
    unfold reconcile. now rewrite Hget, He.
Qed.

(** X7.  What [syncHandler] writes satisfies its own tests: once the
    cache shows the job's Deployment with the owner references and the
    replicas of [newDeployment], the state is converged and a pass makes
    the status write and nothing else. *)
Theorem written_deployment_is_converged (gv : schema.GroupVersion)
  (c : Controller) (s : State) (key : string) (p : ptr)
  (job : samplev1alpha1.InferenceJob) (d : appsv1.Deployment) :
  Cached c s key p job ->
  Targets c job d ->
  metav1.OwnerReferences (appsv1.ObjectMeta d)
  = metav1.OwnerReferences (appsv1.ObjectMeta (newDeployment gv job)) ->
  appsv1.Replicas (appsv1.Spec d)
  = appsv1.Replicas (appsv1.Spec (newDeployment gv job)) ->
  Converged c s key p job d /\
  exists s' out,
    syncHandler gv c key s = (s', out) /\
    issued s s'
      [UpdateInferenceJob (metav1.Namespace (samplev1alpha1.ObjectMeta job))
         (withStatus job (appsv1.AvailableReplicas (appsv1.Status d)))].
Proof.
  intros Hc Ht Howners Hreplicas.
  assert (Hconv : Converged c s key p job d).
  { split; [exact Hc|]. split; [exact Ht|]. split.
    - unfold Owned, metav1.IsControlledBy, metav1.GetControllerOf.
      rewrite Howners. apply (newDeployment_controlled gv job).
    - unfold ReplicasAgree. rewrite Hreplicas.
      change (appsv1.Replicas (appsv1.Spec (newDeployment gv job)))
        with (samplev1alpha1.Replicas (samplev1alpha1.Spec job)).
      destruct (samplev1alpha1.Replicas (samplev1alpha1.Spec job)) as [r|];
        [right; now exists r | now left]. }
  split; [exact Hconv|].
  rewrite (sync_converged_run gv c s key p job d Hconv).
  eexists _, _. split; [apply surjective_pairing|].
  apply writeBack_calls.
Qed.

(** X12.  A key whose Deployment is in the cache but not controlled by
    the job is put back with [AddRateLimited] and never forgotten; the
    turn records one Warning event, makes no write call and leaves the
    cached job as it was, so that the next turn on the key meets the same
    conflict. *)
Theorem worker_retries_conflict (gv : schema.GroupVersion) (c : Controller)
  (s : State) (key : string) (q : list Any) (p : ptr)
  (job : samplev1alpha1.InferenceJob) (d : appsv1.Deployment) :
  pending s = AnyString key :: q ->
  Cached c s key p job -> Targets c job d -> notControlledBy d job ->
  exists s' ev,
    processNextWorkItem gv c s = (s', Ret true) /\
    queueOps s' = queueOps s
                  ++ [QAddRateLimited (AnyString key); QDone (AnyString key)] /\
    events s' = events s ++ [ev] /\
    ev_type ev = corev1.EventTypeWarning /\
    issued s s' [] /\
    Cached c s' key p job.
Proof.
  intros Hq Hc Ht Hn.
  assert (Hc' : Cached c (set_pending q s) key p job)
    by (destruct Hc as [Hk Hj Hname]; now split).
  rewrite (processNextWorkItem_key_run gv c s _ key q _ Hq
             (sync_conflict_run gv c _ key p job d Hc' Ht Hn)).
  eexists _, _. split; [reflexivity|].
  cbn [queueOps events calls log_handled log_queueOp log_event set_pending].
  rewrite <- app_assoc.
  split; [reflexivity|]. split; [reflexivity|]. split; [reflexivity|].
  split; [unfold issued;
          cbn [calls log_handled log_queueOp log_event set_pending];
          now rewrite app_nil_r|].
  destruct Hc as [Hk Hj Hname]. now split.
Qed.

(** ** More on event ingestion and on the Deployment's shape *)

(** X20.  The update handler of the Deployment informer panics when the
    new or the old object is not a Deployment, a tombstone included, and
    has changed nothing by then. *)
Theorem deploymentUpdateFunc_needs_deployments (c : Controller)
  (old new : Any) (s : State) :
  (forall d, new <> AnyDeployment d) \/ (forall d, old <> AnyDeployment d) ->
  exists why, deploymentUpdateFunc c old new s = (s, Panic why).
Proof.
  intros [Hnew | Hold]; unfold deploymentUpdateFunc.
  - destruct new as [d | | | |]; try (eexists; reflexivity).
    now destruct (Hnew d).
  - destruct new as [d | | | |]; try (eexists; reflexivity).
    destruct old as [d' | | | |]; try (eexists; reflexivity).
    now destruct (Hold d').
Qed.

Lemma nameBeforeColon_colonFree_id (image : string) :
  colonFree image = true -> nameBeforeColon image = image.
Proof.
  induction image as [|c image IH]; [reflexivity|].
  cbn [colonFree]. intros H. apply andb_prop in H as [Hc Hrest].
  apply negb_true_iff in Hc.
  now rewrite nameBeforeColon_cons, Hc, (IH Hrest).
Qed.

(** X21.  [newDeployment] gives the pod one container, whose image is
    [Spec.ImageToDeploy] in full.  Its name is the whole image when the
    image has no colon, empty when the image starts with a colon, and the
    repository part when the image is a colon-free repository, a colon and
    a tag. *)
Theorem newDeployment_container (gv : schema.GroupVersion)
  (job : samplev1alpha1.InferenceJob) :
  exists name,
    corev1.Containers
      (corev1.tmpl_Spec (appsv1.Template (appsv1.Spec (newDeployment gv job))))
    = [{| corev1.c_Name := name;
          corev1.c_Image :=
            samplev1alpha1.ImageToDeploy (samplev1alpha1.Spec job) |}] /\
    (colonFree (samplev1alpha1.ImageToDeploy (samplev1alpha1.Spec job)) = true ->
     name = samplev1alpha1.ImageToDeploy (samplev1alpha1.Spec job)) /\
    (forall tag,
        samplev1alpha1.ImageToDeploy (samplev1alpha1.Spec job)
        = String ":"%char tag ->
        name = EmptyString) /\
    (forall repository tag,
        colonFree repository = true ->
        samplev1alpha1.ImageToDeploy (samplev1alpha1.Spec job)
        = repository +:+ String ":"%char tag ->
        name = repository).
Proof.
  exists (nameBeforeColon
            (samplev1alpha1.ImageToDeploy (samplev1alpha1.Spec job))).
  split.
  { unfold newDeployment.
    cbn [appsv1.Spec appsv1.Template corev1.tmpl_Spec corev1.Containers].
    unfold index0, strings.Split. rewrite Split_go_colon_hd. reflexivity. }
  split; [apply nameBeforeColon_colonFree_id|].
  split.
  - intros tag Htag. now rewrite Htag.
  - intros repository tag Hfree Himage. rewrite Himage. clear Himage.
    induction repository as [|c r IH]; [reflexivity|].
    cbn [colonFree] in Hfree. apply andb_prop in Hfree as [Hc Hr].
    apply negb_true_iff in Hc.
    now rewrite append_cons, nameBeforeColon_cons, Hc, (IH Hr).
Qed.

(** ** These properties on the small cluster *)

Lemma syncHandler_stops_at_failed_write_witness :
  let c := Faulty.refusing None in
  let s := Fixture.state (Fixture.job "x" (Some 3%Z)) [] in
  snd (syncHandler Fixture.groupVersion c "default/job" s)
    = Ret (Some Faulty.unavailable) /\
  events (fst (syncHandler Fixture.groupVersion c "default/job" s)) = events s.
Proof.
  destruct (syncHandler_stops_at_failed_write Fixture.groupVersion
              (Faulty.refusing None) "default/job"
              (Fixture.state (Fixture.job "x" (Some 3%Z)) []))
    as (new & Hissued & _ & Hlast).
  apply (Hlast (CreateDeployment "default"
                  (newDeployment Fixture.groupVersion
                     (Fixture.job "x" (Some 3%Z))))).
  - unfold issued in Hissued. cbn [calls Fixture.state app] in Hissued.
    rewrite <- Hissued. reflexivity.
  - reflexivity.
Defined.

Lemma syncHandler_nil_means_status_written_witness :
  let c := Fixture.controller (Some (Fixture.owned (Some 2%Z))) in
  let job := Fixture.job "x" (Some 2%Z) in
  let s := Fixture.state job [] in
  let s' := fst (syncHandler Fixture.groupVersion c "default/job" s) in
  exists new available accepted,
    issued s s' new /\
    last new
    = Some (UpdateInferenceJob
              (metav1.Namespace (samplev1alpha1.ObjectMeta job))
              (withStatus job available)) /\
    inferenceJobs_Update (sampleclientset c)
      (metav1.Namespace (samplev1alpha1.ObjectMeta job))
      (withStatus job available) = Ok accepted /\
    events s' = events s
                ++ [{| ev_object := 0; ev_type := corev1.EventTypeNormal;
                       ev_reason := SuccessSynced;
                       ev_message := Literal MessageResourceSynced |}].
Proof.
  apply (syncHandler_nil_means_status_written Fixture.groupVersion
           (Fixture.controller (Some (Fixture.owned (Some 2%Z))))
           (Fixture.state (Fixture.job "x" (Some 2%Z)) []) _
           "default/job" 0 (Fixture.job "x" (Some 2%Z))).
  - fixture_cached.
  - reflexivity.
Defined.

Lemma syncHandler_passes_lister_errors_witness :
  let s := Fixture.state (Fixture.job "x" None) [] in
  syncHandler Fixture.groupVersion Faulty.unreadableJobs "default/job" s
    = (s, Ret (Some Faulty.unavailable)) /\
  syncHandler Fixture.groupVersion Faulty.unreadableDeployments "default/job" s
    = (s, Ret (Some Faulty.unavailable)).
Proof.
  split.
  - apply (proj1 (syncHandler_passes_lister_errors Fixture.groupVersion
                    Faulty.unreadableJobs
                    (Fixture.state (Fixture.job "x" None) [])
                    "default/job" Faulty.unavailable eq_refl)
             "default" "job"); reflexivity.
  - apply (proj2 (syncHandler_passes_lister_errors Fixture.groupVersion
                    Faulty.unreadableDeployments
                    (Fixture.state (Fixture.job "x" None) [])
                    "default/job" Faulty.unavailable eq_refl)
             0 (Fixture.job "x" None)).
    + fixture_cached.
    + reflexivity.
Defined.

Lemma written_deployment_is_converged_witness :
  let d := Fixture.owned (Some 2%Z) in
  let c := Fixture.controller (Some d) in
  let job := Fixture.job "x" (Some 2%Z) in
  let s := Fixture.state job [] in
  Converged c s "default/job" 0 job d /\
  exists s' out,
    syncHandler Fixture.groupVersion c "default/job" s = (s', out) /\
    issued s s'
      [UpdateInferenceJob (metav1.Namespace (samplev1alpha1.ObjectMeta job))
         (withStatus job (appsv1.AvailableReplicas (appsv1.Status d)))].
Proof.
  apply (written_deployment_is_converged Fixture.groupVersion
           (Fixture.controller (Some (Fixture.owned (Some 2%Z))))
           (Fixture.state (Fixture.job "x" (Some 2%Z)) [])
           "default/job" 0 (Fixture.job "x" (Some 2%Z))
           (Fixture.owned (Some 2%Z))).
  - fixture_cached.
  - reflexivity.
  - reflexivity.
  - reflexivity.
Defined.

Lemma worker_requeues_failed_key_witness :
  let c := Fixture.controller (Some (Fixture.unowned (Some 1%Z))) in
  let s := Fixture.state (Fixture.job "x" (Some 1%Z))
             [AnyString "default/job"] in
  let s1 := fst (syncHandler Fixture.groupVersion c "default/job"
                   (set_pending [] s)) in
  let e := Errorf (Sprintf MessageResourceExists [Literal "x"]) in
  exists s',
    processNextWorkItem Fixture.groupVersion c s = (s', Ret true) /\
    queueOps s' = queueOps s
                  ++ [QAddRateLimited (AnyString "default/job");
                      QDone (AnyString "default/job")] /\
    handled s' = handled s1 ++ [requeueError "default/job" e] /\
    pending s' = [].
Proof.
  apply (worker_requeues_failed_key Fixture.groupVersion
           (Fixture.controller (Some (Fixture.unowned (Some 1%Z))))
           (Fixture.state (Fixture.job "x" (Some 1%Z))
              [AnyString "default/job"])
           _ "default/job" []
           (Errorf (Sprintf MessageResourceExists [Literal "x"]))).
  - reflexivity.
  - reflexivity.
Defined.

Lemma worker_done_despite_panic_witness :
  let c := Fixture.controller (Some (Fixture.owned None)) in
  let s := Fixture.state (Fixture.job "x" (Some 3%Z))
             [AnyString "default/job"] in
  exists s',
    processNextWorkItem Fixture.groupVersion c s = (s', Panic nilDereference) /\
    queueOps s' = queueOps s ++ [QDone (AnyString "default/job")] /\
    handled s' = handled (set_pending [] s) /\
    pending s' = [].
Proof.
  apply (worker_done_despite_panic Fixture.groupVersion
           (Fixture.controller (Some (Fixture.owned None)))
           (Fixture.state (Fixture.job "x" (Some 3%Z))
              [AnyString "default/job"])
           _ "default/job" [] nilDereference).
  - reflexivity.
  - reflexivity.
Defined.

Lemma worker_forgets_invalid_item_witness :
  let c := Fixture.controller None in
  let s := Fixture.state (Fixture.job "x" None) [AnyOther] in
  exists s',
    processNextWorkItem Fixture.groupVersion c s = (s', Ret true) /\
    queueOps s' = queueOps s ++ [QForget AnyOther; QDone AnyOther] /\
    handled s' = handled s ++ [invalidItemError] /\
    pending s' = [] /\
    calls s' = calls s /\ events s' = events s /\ heap s' = heap s.
Proof.
  apply (worker_forgets_invalid_item Fixture.groupVersion
           (Fixture.controller None)
           (Fixture.state (Fixture.job "x" None) [AnyOther]) AnyOther []).
  - reflexivity.
  - intros key H. discriminate H.
Defined.

Lemma worker_marks_done_once_witness :
  let c := Fixture.controller None in
  let s := Fixture.state (Fixture.job "x" None)
             [AnyString "default/job"; AnyOther] in
  exists s' out ops,
    processNextWorkItem Fixture.groupVersion c s = (s', out) /\
    pending s' = [AnyOther] /\
    queueOps s' = queueOps s ++ ops ++ [QDone (AnyString "default/job")] /\
    ((out = Ret true /\
      (ops = [QForget (AnyString "default/job")] \/
       ops = [QAddRateLimited (AnyString "default/job")])) \/
     (ops = [] /\ exists why, out = Panic why)).
Proof.
  apply (worker_marks_done_once Fixture.groupVersion (Fixture.controller None)
           (Fixture.state (Fixture.job "x" None)
              [AnyString "default/job"; AnyOther])
           (AnyString "default/job") [AnyOther]).
  reflexivity.
Defined.

Lemma worker_retries_conflict_witness :
  let d := Fixture.unowned (Some 1%Z) in
  let c := Fixture.controller (Some d) in
  let job := Fixture.job "x" (Some 1%Z) in
  let s := Fixture.state job [AnyString "default/job"] in
  exists s' ev,
    processNextWorkItem Fixture.groupVersion c s = (s', Ret true) /\
    queueOps s' = queueOps s
                  ++ [QAddRateLimited (AnyString "default/job");
                      QDone (AnyString "default/job")] /\
    events s' = events s ++ [ev] /\
    ev_type ev = corev1.EventTypeWarning /\
    issued s s' [] /\
    Cached c s' "default/job" 0 job.
Proof.
  apply (worker_retries_conflict Fixture.groupVersion
           (Fixture.controller (Some (Fixture.unowned (Some 1%Z))))
           (Fixture.state (Fixture.job "x" (Some 1%Z))
              [AnyString "default/job"])
           "default/job" [] 0 (Fixture.job "x" (Some 1%Z))
           (Fixture.unowned (Some 1%Z))).
  - reflexivity.
  - fixture_cached.
  - reflexivity.
  - left. reflexivity.
Defined.


Lemma enqueued_key_names_the_job_witness :
  let c := Fixture.controller None in
  let job := Fixture.job "x" None in
  let s := Fixture.state job [] in
  let meta := samplev1alpha1.ObjectMeta job in
  exists s' key,
    enqueueInferenceJob (AnyInferenceJob 0) s = (s', Ret tt) /\
    queueOps s' = queueOps s ++ [QAdd (AnyString key)] /\
    In (AnyString key) (pending s') /\
    cache.SplitMetaNamespaceKey key
    = Ok (metav1.Namespace meta, metav1.Name meta) /\
    (inferenceJobsLister c (metav1.Namespace meta) (metav1.Name meta) = Ok 0 ->
     samplev1alpha1.DeploymentName (samplev1alpha1.Spec job) <> EmptyString ->
     Cached c s' key 0 job).
Proof.
  apply (enqueued_key_names_the_job (Fixture.controller None)
           (Fixture.state (Fixture.job "x" None) []) 0 (Fixture.job "x" None));
    reflexivity.
Defined.


Lemma handleObject_sees_through_tombstones_witness :
  let c := Fixture.controller None in
  let s := Fixture.state (Fixture.job "x" None) [] in
  handleObject c
    (AnyTombstone "default/x" (AnyDeployment (Fixture.owned None))) s
  = handleObject c (AnyDeployment (Fixture.owned None)) s.
Proof.
  apply (handleObject_sees_through_tombstones (Fixture.controller None)
           "default/x" (AnyDeployment (Fixture.owned None))
           (Fixture.state (Fixture.job "x" None) [])).
  reflexivity.
Defined.

Lemma handleObject_reports_undecodable_witness :
  let s := Fixture.state (Fixture.job "x" None) [] in
  exists e,
    handleObject (Fixture.controller None)
      (AnyTombstone "default/x" (AnyString "gone")) s
    = (log_handled e s, Ret tt).
Proof.
  apply (handleObject_reports_undecodable (Fixture.controller None)
           (AnyTombstone "default/x" (AnyString "gone"))
           (Fixture.state (Fixture.job "x" None) [])).
  reflexivity.
Defined.

Lemma handleObject_finds_creator_witness :
  let c := Fixture.controller None in
  let job := Fixture.job "x" (Some 3%Z) in
  let s := Fixture.state job [] in
  let meta := samplev1alpha1.ObjectMeta job in
  exists s',
    handleObject c
      (AnyDeployment (newDeployment Fixture.groupVersion job)) s
    = (s', Ret tt) /\
    queueOps s' = queueOps s ++ [QAdd (AnyString (cache.MetaNamespaceKey meta))] /\
    In (AnyString (cache.MetaNamespaceKey meta)) (pending s') /\
    handled s' = handled s.
Proof.
  apply (handleObject_finds_creator Fixture.groupVersion
           (Fixture.controller None)
           (Fixture.state (Fixture.job "x" (Some 3%Z)) []) 0
           (Fixture.job "x" (Some 3%Z)));
    reflexivity.
Defined.

Lemma deploymentUpdateFunc_needs_deployments_witness :
  let s := Fixture.state (Fixture.job "x" None) [] in
  exists why,
    deploymentUpdateFunc (Fixture.controller None)
      (AnyDeployment (Fixture.owned None))
      (AnyTombstone "default/x" (AnyDeployment (Fixture.owned None))) s
    = (s, Panic why).
Proof.
  apply (deploymentUpdateFunc_needs_deployments (Fixture.controller None)
           (AnyDeployment (Fixture.owned None))
           (AnyTombstone "default/x" (AnyDeployment (Fixture.owned None)))
           (Fixture.state (Fixture.job "x" None) [])).
  left. intros d H. discriminate H.
Defined.

Lemma newDeployment_container_witness :
  corev1.Containers
    (corev1.tmpl_Spec
       (appsv1.Template
          (appsv1.Spec
             (newDeployment Fixture.groupVersion (Fixture.job "x" None)))))
  = [{| corev1.c_Name := "nginx"; corev1.c_Image := "nginx:latest" |}].
Proof.
  destruct (newDeployment_container Fixture.groupVersion (Fixture.job "x" None))
    as (name & Hcontainers & _ & _ & Hrepository).
  rewrite Hcontainers.
  now rewrite (Hrepository "nginx" "latest" eq_refl eq_refl).
Defined.
